(** * Wardrobe Manager: the garment state machine and its coordinator

    A shallow embedding of
    [custom_components/wardrobe_manager/const.py],
    [custom_components/wardrobe_manager/state_machine.py],
    [custom_components/wardrobe_manager/coordinator.py], of the [is_on]
    property of [binary_sensor.py] and of the two callers of
    [async_register_garment] in [__init__.py] and [config_flow.py].

    Conventions of the embedding.
    - Python [int] is [Z]; [str] is [string]; [str | None] is
      [option string].
    - The clock reading [datetime.now(timezone.utc).isoformat()] is an
      explicit argument [now].
    - A [GarmentData] object is mutated in place by the Python code; a
      function that mutates its argument returns the object after the call
      next to its Python return value.
    - The coordinator's dictionaries are finite maps; the effects it has on
      its collaborators (logger, event bus, store, listeners) are collected
      in a trace. *)

From stdpp Require Import base strings gmap list.

Open Scope string_scope.
Open Scope list_scope.

(** ** Exceptions and results *)

Inductive exn : Type :=
| KeyError (key : string)
| ValueError (value : string)
| OtherError.  (* any other exception, raised by a collaborator *)

Inductive outcome (A : Type) : Type :=
| Returned (a : A)
| Raised (e : exn).
Arguments Returned {A} a.
Arguments Raised {A} e.

Definition outcome_bind {A B} (m : outcome A) (k : A → outcome B) : outcome B :=
  match m with
  | Returned a => k a
  | Raised e => Raised e
  end.

#[export] Instance outcome_ret : MRet outcome := @Returned.
#[export] Instance outcome_mbind : MBind outcome :=
  λ A B k m, outcome_bind m k.

Definition returns_normally {A} (m : outcome A) : Prop :=
  ∃ a, m = Returned a.

(** [try: body except (KeyError, ValueError): handler]. *)
Definition try_except_KeyError_ValueError {A} (body : outcome A) (handler : outcome A)
  : outcome A :=
  match body with
  | Returned a => Returned a
  | Raised (KeyError _) | Raised (ValueError _) => handler
  | Raised OtherError => Raised OtherError
  end.

(** [d[key]] on a dictionary whose entry [key] is [entry]. *)
Definition getitem {A} (key : string) (entry : option A) : outcome A :=
  match entry with
  | Some a => Returned a
  | None => Raised (KeyError key)
  end.

(** A list comprehension whose body may raise: the first exception, in
    iteration order, ends it. *)
Fixpoint comprehension {A B} (f : A → outcome B) (l : list A) : outcome (list B) :=
  match l with
  | [] => Returned []
  | x :: l' =>
      outcome_bind (f x) (λ y,
      outcome_bind (comprehension f l') (λ ys, Returned (y :: ys)))
  end.

(** ** const.py *)

Module Const.

Definition DOMAIN : string := "wardrobe_manager".
Definition EVENT_UNKNOWN_TAG : string := DOMAIN +:+ "_unknown_tag".
Definition DEFAULT_NEEDS_WASHING_THRESHOLD : Z := 3.

Inductive ScannerRole : Type :=
| CLOSET | LAUNDRY_BIN | WASHER | DRYER | IRONING.

Inductive GarmentState : Type :=
| CLEAN | WORN | IN_LAUNDRY_BIN | WASHING | DRYING | NEEDS_IRONING.

#[export] Instance ScannerRole_eq_dec : EqDecision ScannerRole.
Proof. solve_decision. Defined.

#[export] Instance GarmentState_eq_dec : EqDecision GarmentState.
Proof. solve_decision. Defined.

(** The [.value] of a [StrEnum] member. *)
Definition role_value (r : ScannerRole) : string :=
  match r with
  | CLOSET => "closet"
  | LAUNDRY_BIN => "laundry_bin"
  | WASHER => "washer"
  | DRYER => "dryer"
  | IRONING => "ironing"
  end.

Definition state_value (s : GarmentState) : string :=
  match s with
  | CLEAN => "clean"
  | WORN => "worn"
  | IN_LAUNDRY_BIN => "in_laundry_bin"
  | WASHING => "washing"
  | DRYING => "drying"
  | NEEDS_IRONING => "needs_ironing"
  end.

Definition all_roles : list ScannerRole :=
  [CLOSET; LAUNDRY_BIN; WASHER; DRYER; IRONING].

Definition all_states : list GarmentState :=
  [CLEAN; WORN; IN_LAUNDRY_BIN; WASHING; DRYING; NEEDS_IRONING].

(** [ScannerRole(v)]: the member whose value is [v], [ValueError]
    otherwise. *)
Definition ScannerRole_of_value (v : string) : outcome ScannerRole :=
  match list_find (λ r, role_value r = v) all_roles with
  | Some (_, r) => Returned r
  | None => Raised (ValueError v)
  end.

(** [GarmentState(v)]. *)
Definition GarmentState_of_value (v : string) : outcome GarmentState :=
  match list_find (λ s, state_value s = v) all_states with
  | Some (_, s) => Returned s
  | None => Raised (ValueError v)
  end.

End Const.
Export Const.

(** ** state_machine.py *)

(** Valid transitions: (scanner_role, from_state) -> to_state.  The
    dictionary literal, in source order; its keys are pairwise distinct. *)
Definition TRANSITIONS : list ((ScannerRole * GarmentState) * GarmentState) :=
  [ ((CLOSET, CLEAN), WORN);
    ((CLOSET, WORN), CLEAN);
    ((CLOSET, IN_LAUNDRY_BIN), CLEAN);
    ((CLOSET, DRYING), CLEAN);
    ((CLOSET, NEEDS_IRONING), CLEAN);
    ((LAUNDRY_BIN, WORN), IN_LAUNDRY_BIN);
    ((WASHER, IN_LAUNDRY_BIN), WASHING);
    ((DRYER, WASHING), DRYING);
    ((IRONING, DRYING), NEEDS_IRONING);
    ((IRONING, WASHING), NEEDS_IRONING) ].

(** [TRANSITIONS.get(key)]. *)
Definition TRANSITIONS_get (key : ScannerRole * GarmentState) : option GarmentState :=
  snd <$> (snd <$> list_find (λ kv, fst kv = key) TRANSITIONS).

Record WashCycle : Type := mkWashCycle {
  timestamp : string;
  method : string
}.

Record GarmentData : Type := mkGarmentData {
  tag_id : string;
  name : string;
  category : string;
  color : string;
  garment_state : GarmentState;
  wear_count_since_wash : Z;
  total_wear_count : Z;
  needs_washing_threshold : Z;
  last_worn : option string;
  last_washed : option string;
  last_scanned_at : option string;
  wash_cycles : list WashCycle
}.

(** The constructor call [GarmentData(tag_id=..., name=..., category=...,
    color=..., needs_washing_threshold=...)] with the dataclass defaults. *)
Definition new_GarmentData (tag name category color : string) (threshold : Z) : GarmentData :=
  mkGarmentData tag name category color CLEAN 0 0 threshold None None None [].

(** Attribute assignments. *)
Definition set_garment_state (v : GarmentState) (g : GarmentData) : GarmentData :=
  mkGarmentData (tag_id g) (name g) (category g) (color g) v
    (wear_count_since_wash g) (total_wear_count g) (needs_washing_threshold g)
    (last_worn g) (last_washed g) (last_scanned_at g) (wash_cycles g).

Definition set_wear_count_since_wash (v : Z) (g : GarmentData) : GarmentData :=
  mkGarmentData (tag_id g) (name g) (category g) (color g) (garment_state g)
    v (total_wear_count g) (needs_washing_threshold g)
    (last_worn g) (last_washed g) (last_scanned_at g) (wash_cycles g).

Definition set_total_wear_count (v : Z) (g : GarmentData) : GarmentData :=
  mkGarmentData (tag_id g) (name g) (category g) (color g) (garment_state g)
    (wear_count_since_wash g) v (needs_washing_threshold g)
    (last_worn g) (last_washed g) (last_scanned_at g) (wash_cycles g).

Definition set_last_worn (v : option string) (g : GarmentData) : GarmentData :=
  mkGarmentData (tag_id g) (name g) (category g) (color g) (garment_state g)
    (wear_count_since_wash g) (total_wear_count g) (needs_washing_threshold g)
    v (last_washed g) (last_scanned_at g) (wash_cycles g).

Definition set_last_washed (v : option string) (g : GarmentData) : GarmentData :=
  mkGarmentData (tag_id g) (name g) (category g) (color g) (garment_state g)
    (wear_count_since_wash g) (total_wear_count g) (needs_washing_threshold g)
    (last_worn g) v (last_scanned_at g) (wash_cycles g).

Definition set_last_scanned_at (v : option string) (g : GarmentData) : GarmentData :=
  mkGarmentData (tag_id g) (name g) (category g) (color g) (garment_state g)
    (wear_count_since_wash g) (total_wear_count g) (needs_washing_threshold g)
    (last_worn g) (last_washed g) v (wash_cycles g).

(** [garment.wash_cycles.append(wc)]. *)
Definition append_wash_cycle (wc : WashCycle) (g : GarmentData) : GarmentData :=
  mkGarmentData (tag_id g) (name g) (category g) (color g) (garment_state g)
    (wear_count_since_wash g) (total_wear_count g) (needs_washing_threshold g)
    (last_worn g) (last_washed g) (last_scanned_at g) (wash_cycles g ++ [wc]).

(** [transition(garment, scanner_role, scanner_id)], at clock reading
    [now].  The first component is the object [garment] after the call,
    the second is the Python return value ([None], or the mutated
    garment). *)
Definition transition (now : string) (garment : GarmentData)
    (scanner_role : ScannerRole) (scanner_id : string)
  : GarmentData * option GarmentData :=
  let key := (scanner_role, garment_state garment) in
  match TRANSITIONS_get key with
  | None => (garment, None)
  | Some new_state =>
      let garment := set_garment_state new_state garment in
      let garment := set_last_scanned_at (Some scanner_id) garment in
      (* Track wear events *)
      let garment :=
        if decide (new_state = WORN) then
          let garment :=
            set_wear_count_since_wash (wear_count_since_wash garment + 1) garment in
          let garment :=
            set_total_wear_count (total_wear_count garment + 1) garment in
          set_last_worn (Some now) garment
        else garment in
      (* Track wash events: entering washing resets wear count *)
      let garment :=
        if decide (new_state = WASHING) then
          let garment := set_wear_count_since_wash 0 garment in
          let garment := set_last_washed (Some now) garment in
          append_wash_cycle (mkWashCycle now "machine") garment
        else garment in
      (garment, Some garment)
  end.


(** *** Serialization

    A storage dictionary of a garment, restricted to the keys that
    [from_dict] reads and to values of the annotated types.  A field is
    [None] when its key is absent (for the nullable [last_*] fields: absent
    or null, which [dict.get] does not distinguish). *)

Record WashCycleDict : Type := mkWashCycleDict {
  d_timestamp : option string;
  d_method : option string
}.

Record GarmentDict : Type := mkGarmentDict {
  d_name : option string;
  d_category : option string;
  d_color : option string;
  d_garment_state : option string;
  d_wear_count_since_wash : option Z;
  d_total_wear_count : option Z;
  d_needs_washing_threshold : option Z;
  d_last_worn : option string;
  d_last_washed : option string;
  d_last_scanned_at : option string;
  d_wash_cycles : option (list WashCycleDict)
}.

(** [{"timestamp": wc.timestamp, "method": wc.method}]. *)
Definition WashCycle_to_dict (wc : WashCycle) : WashCycleDict :=
  mkWashCycleDict (Some (timestamp wc)) (Some (method wc)).

(** [WashCycle(timestamp=wc["timestamp"], method=wc["method"])]. *)
Definition WashCycle_from_dict (wc : WashCycleDict) : outcome WashCycle :=
  ts ← getitem "timestamp" (d_timestamp wc);
  m ← getitem "method" (d_method wc);
  mret (mkWashCycle ts m).

(** [GarmentData.to_dict]. *)
Definition to_dict (self : GarmentData) : GarmentDict :=
  {| d_name := Some (name self);
     d_category := Some (category self);
     d_color := Some (color self);
     d_garment_state := Some (state_value (garment_state self));
     d_wear_count_since_wash := Some (wear_count_since_wash self);
     d_total_wear_count := Some (total_wear_count self);
     d_needs_washing_threshold := Some (needs_washing_threshold self);
     d_last_worn := last_worn self;
     d_last_washed := last_washed self;
     d_last_scanned_at := last_scanned_at self;
     d_wash_cycles := Some (WashCycle_to_dict <$> wash_cycles self) |}.

(** [GarmentData.from_dict]; the keyword arguments are evaluated in source
    order, so the first failing one decides the exception. *)
Definition from_dict (tag : string) (data : GarmentDict) : outcome GarmentData :=
  name ← getitem "name" (d_name data);
  category ← getitem "category" (d_category data);
  let color := default "" (d_color data) in
  garment_state ← GarmentState_of_value (default "clean" (d_garment_state data));
  let wear_count_since_wash := default 0%Z (d_wear_count_since_wash data) in
  let total_wear_count := default 0%Z (d_total_wear_count data) in
  let needs_washing_threshold := default 3%Z (d_needs_washing_threshold data) in
  let last_worn := d_last_worn data in
  let last_washed := d_last_washed data in
  let last_scanned_at := d_last_scanned_at data in
  wash_cycles ← comprehension WashCycle_from_dict (default [] (d_wash_cycles data));
  mret (mkGarmentData tag name category color garment_state
          wear_count_since_wash total_wear_count needs_washing_threshold
          last_worn last_washed last_scanned_at wash_cycles).

Definition minimal_dict : GarmentDict :=
  mkGarmentDict (Some "Shirt") (Some "shirt") None None None None None None None None None.


(** ** coordinator.py *)

Module Coordinator.

(** The coordinator's two dictionaries.  A scanner entry is itself a
    dictionary from strings to strings ([{"role": ..., "name": ...}] when it
    was written by [async_register_scanner]; anything when it was loaded
    from storage). *)
Record state : Type := mkState {
  garments : gmap string GarmentData;
  scanners : gmap string (gmap string string)
}.

Inductive log_level : Type := DEBUG | WARNING | ERROR.

(** What the coordinator does to its collaborators. *)
Inductive effect : Type :=
| Log (level : log_level)
| BusFire (event_type : string) (event_data : list (string * string))
| StoreSave (saved_scanners : gmap string (gmap string string))
            (saved_garments : gmap string GarmentDict)
| SetUpdatedData (data : gmap string GarmentData)
| DeviceGetOrCreate (identifier name model : string).

(** A diagnostic is a log line; everything else is a signal to a
    collaborator. *)
Definition is_signal (e : effect) : bool :=
  match e with
  | Log _ => false
  | _ => true
  end.

Definition signals (trace : list effect) : list effect :=
  filter (λ e, is_signal e = true) trace.

(** What a call reads from outside: the clock, and whether the store's
    [async_save] raises. *)
Record env : Type := mkEnv {
  clock : string;
  store_save_raises : bool
}.

(** A method of the coordinator: it may raise, and otherwise returns a
    value, the coordinator after the call and the effects, in order. *)
Definition M (A : Type) : Type := state → outcome (A * state * list effect).

Definition ret {A} (a : A) : M A := λ self, Returned (a, self, []).

Definition bind {A B} (m : M A) (k : A → M B) : M B := λ self,
  match m self with
  | Raised e => Raised e
  | Returned (a, self1, t1) =>
      match k a self1 with
      | Raised e => Raised e
      | Returned (b, self2, t2) => Returned (b, self2, (t1 ++ t2)%list)
      end
  end.

#[export] Instance M_ret : MRet M := @ret.
#[export] Instance M_bind : MBind M := λ A B k m, bind m k.

Definition get_self : M state := λ self, Returned (self, self, []).
Definition emit (e : effect) : M unit := λ self, Returned (tt, self, [e]).
Definition lift {A} (o : outcome A) : M A := λ self,
  match o with
  | Returned a => Returned (a, self, [])
  | Raised e => Raised e
  end.

(** [self.garments[tag_id] = garment]; also the write-back of a garment
    object that was mutated in place. *)
Definition set_garment (tag : string) (g : GarmentData) : M unit := λ self,
  Returned (tt, mkState (<[tag := g]> (garments self)) (scanners self), []).

Definition del_garment (tag : string) : M unit := λ self,
  Returned (tt, mkState (delete tag (garments self)) (scanners self), []).

Definition set_scanner (scanner_id : string) (entry : gmap string string) : M unit :=
  λ self,
  Returned (tt, mkState (garments self) (<[scanner_id := entry]> (scanners self)), []).

(** [await self._store.async_save(data)]. *)
Definition store_async_save (e : env) (self : state) : M unit :=
  emit (StoreSave (scanners self) (to_dict <$> garments self));;
  lift (if store_save_raises e then Raised OtherError else Returned tt).

(** [try: m except Exception: handler], for a method. *)
Definition try_except (m : M unit) (handler : M unit) : M unit := λ self,
  match m self with
  | Returned r => Returned r
  | Raised _ => handler self
  end.

(** [_async_save]. *)
Definition _async_save (e : env) : M unit :=
  self ← get_self;
  try_except (store_async_save e self) (emit (Log ERROR)).

(** [self.async_set_updated_data(self.garments)]. *)
Definition async_set_updated_data : M unit :=
  self ← get_self;
  emit (SetUpdatedData (garments self)).

(** [get_scanner_role]. *)
Definition get_scanner_role (self : state) (scanner_id : string)
  : outcome (option ScannerRole) :=
  match scanners self !! scanner_id with
  | None => Returned None
  | Some scanner =>
      try_except_KeyError_ValueError
        (role ← getitem "role" (scanner !! "role");
         r ← ScannerRole_of_value role;
         mret (Some r))
        (Returned None)
  end.

(** The event data of an inbound scan: [event.data.get("tag_id")] and
    [event.data.get("scanner_id")]. *)
Record scan_event : Type := mkScanEvent {
  ev_tag_id : option string;
  ev_scanner_id : option string
}.

(** [not v] for [v : str | None]: true for [None] and for the empty
    string. *)
Definition not_ (v : option string) : bool :=
  match v with
  | None => true
  | Some s => bool_decide (s = "")
  end.

(** [handle_tag_scanned]. *)
Definition handle_tag_scanned (e : env) (event : scan_event) : M unit :=
  match ev_tag_id event, ev_scanner_id event with
  | Some tag_id, Some scanner_id =>
      if not_ (Some tag_id) || not_ (Some scanner_id) then
        emit (Log DEBUG)
      else
        self ← get_self;
        scanner_role ← lift (get_scanner_role self scanner_id);
        match scanner_role with
        | None => emit (Log DEBUG)
        | Some scanner_role =>
            match garments self !! tag_id with
            | None =>
                emit (Log WARNING);;
                emit (BusFire EVENT_UNKNOWN_TAG
                        [("tag_id", tag_id);
                         ("scanner_role", role_value scanner_role)])
            | Some garment =>
                emit (Log DEBUG);;
                let '(garment, result) :=
                  transition (clock e) garment scanner_role scanner_id in
                set_garment tag_id garment;;
                match result with
                | None => emit (Log DEBUG)
                | Some _ => _async_save e ;; async_set_updated_data
                end
            end
        end
  | _, _ => emit (Log DEBUG)
  end.

(** [async_register_garment]. *)
Definition async_register_garment (e : env)
    (tag_id name category color : string) (needs_washing_threshold : Z)
  : M GarmentData :=
  let garment := new_GarmentData tag_id name category color needs_washing_threshold in
  set_garment tag_id garment;;
  _async_save e;;
  async_set_updated_data;;
  ret garment.

(** [async_remove_garment]. *)
Definition async_remove_garment (e : env) (tag_id : string) : M bool :=
  self ← get_self;
  match garments self !! tag_id with
  | None => ret false
  | Some _ =>
      del_garment tag_id;;
      _async_save e;;
      async_set_updated_data;;
      ret true
  end.

(** [async_register_scanner]. *)
Definition async_register_scanner (e : env) (scanner_id role name : string) : M unit :=
  set_scanner scanner_id (<["role" := role]> (<["name" := name]> ∅));;
  _async_save e.

(** [async_force_state]. *)
Definition async_force_state (e : env) (tag_id : string) (st : GarmentState) : M bool :=
  self ← get_self;
  match garments self !! tag_id with
  | None => ret false
  | Some garment =>
      set_garment tag_id (set_garment_state st garment);;
      _async_save e;;
      async_set_updated_data;;
      ret true
  end.

(** The four assignments of [async_log_wash_cycle] on the garment
    object. *)
Definition log_wash_cycle_garment (now method : string) (garment : GarmentData)
  : GarmentData :=
  let garment := set_garment_state WASHING garment in
  let garment := set_wear_count_since_wash 0 garment in
  let garment := set_last_washed (Some now) garment in
  append_wash_cycle (mkWashCycle now method) garment.

(** [async_log_wash_cycle]. *)
Definition async_log_wash_cycle (e : env) (tag_id method : string) : M bool :=
  self ← get_self;
  match garments self !! tag_id with
  | None => ret false
  | Some garment =>
      let now := clock e in
      set_garment tag_id (log_wash_cycle_garment now method garment);;
      _async_save e;;
      async_set_updated_data;;
      ret true
  end.

End Coordinator.
Import Coordinator.

(** ** __init__.py and config_flow.py: the two callers of
    [async_register_garment] *)

(** The fields of a register-garment service call, and of the user input of
    the add-garment step; colour and threshold are optional. *)
Record garment_form : Type := mkGarmentForm {
  f_tag_id : string;
  f_garment_name : string;
  f_category : string;
  f_color : option string;
  f_needs_washing_threshold : option Z
}.

(** [async_get_or_create_garment_device(hass, entry_id, garment)]. *)
Definition async_get_or_create_garment_device (garment : GarmentData) : M unit :=
  emit (DeviceGetOrCreate (tag_id garment) (name garment) (category garment)).

(** [handle_register_garment], the handler of the register_garment
    service. *)
Definition handle_register_garment (e : env) (call : garment_form) : M unit :=
  garment ← async_register_garment e
    (f_tag_id call) (f_garment_name call) (f_category call)
    (default "" (f_color call))
    (default DEFAULT_NEEDS_WASHING_THRESHOLD (f_needs_washing_threshold call));
  async_get_or_create_garment_device garment.

Inductive flow_result : Type :=
| ShowForm (step_id : string) (errors : gmap string string)
| CreateEntry.

(** [WardrobeManagerOptionsFlow.async_step_add_garment]. *)
Definition async_step_add_garment (e : env) (user_input : option garment_form)
  : M flow_result :=
  match user_input with
  | Some user_input =>
      coordinator ← get_self;
      let tag_id := f_tag_id user_input in
      if decide (is_Some (garments coordinator !! tag_id)) then
        ret (ShowForm "add_garment" {["base" := "tag_already_registered"]})
      else
        garment ← async_register_garment e
          tag_id (f_garment_name user_input) (f_category user_input)
          (default "" (f_color user_input))
          (default DEFAULT_NEEDS_WASHING_THRESHOLD
             (f_needs_washing_threshold user_input));
        async_get_or_create_garment_device garment;;
        ret CreateEntry
  | None => ret (ShowForm "add_garment" ∅)
  end.

(** ** binary_sensor.py *)

(** [NeedsWashingBinarySensor.is_on] of the sensor for [tag]. *)
Definition is_on (coordinator : state) (tag : string) : option bool :=
  match garments coordinator !! tag with
  | None => None
  | Some garment =>
      Some (wear_count_since_wash garment >=? needs_washing_threshold garment)%Z
  end.

(** ** Derived notions used by the properties *)

(** The (role, state) pairs: 5 roles times 6 states. *)
Definition all_pairs : list (ScannerRole * GarmentState) :=
  list_prod all_roles all_states.

(** The keys of the transition table. *)
Definition table_keys : list (ScannerRole * GarmentState) :=
  fst <$> TRANSITIONS.

(** The pairs that are not a key of the table. *)
Definition non_table_pairs : list (ScannerRole * GarmentState) :=
  filter (λ key, key ∉ table_keys) all_pairs.

(** The storage dictionaries that [from_dict] accepts: "name" and
    "category" present, "garment_state" absent or one of the six values,
    and every entry of "wash_cycles" with its two keys. *)
Definition decodable (data : GarmentDict) : Prop :=
  is_Some (d_name data)
  ∧ is_Some (d_category data)
  ∧ (∃ s, state_value s = default "clean" (d_garment_state data))
  ∧ Forall (λ wc, is_Some (d_timestamp wc) ∧ is_Some (d_method wc))
           (default [] (d_wash_cycles data)).

(** The washing side effects as step 4 of section 4.1 of the specification
    words them, with the method label as a parameter: reset
    [wear_count_since_wash] to 0, set [last_washed] to the current time,
    append a wash-cycle record (now, method). *)
Definition spec_washing_effects (now method : string) (g : GarmentData) : GarmentData :=
  mkGarmentData (tag_id g) (name g) (category g) (color g) (garment_state g)
    0 (total_wear_count g) (needs_washing_threshold g)
    (last_worn g) (Some now) (last_scanned_at g)
    (wash_cycles g ++ [mkWashCycle now method]).

(** The trace of [_async_save]: the saved document, or the error log when
    the store raised. *)
Definition save_trace (e : env) (self : state) : list effect :=
  if store_save_raises e then [Log ERROR]
  else [StoreSave (scanners self) (to_dict <$> garments self)].

(** The trace of a mutation that went through: save, then notify. *)
Definition commit_trace (e : env) (self : state) : list effect :=
  save_trace e self ++ [SetUpdatedData (garments self)].

(** The coordinator after [garments[tag]] became [g]. *)
Definition with_garment (tag : string) (g : GarmentData) (self : state) : state :=
  mkState (<[tag := g]> (garments self)) (scanners self).

(** The five ways a scan event ends. *)
Inductive scan_case (e : env) (ev : scan_event) (self : state)
  : outcome (unit * state * list effect) → Prop :=
| scan_missing :
    not_ (ev_tag_id ev) || not_ (ev_scanner_id ev) = true →
    scan_case e ev self (Returned (tt, self, [Log DEBUG]))
| scan_unregistered (tag sid : string) :
    ev_tag_id ev = Some tag → tag ≠ "" →
    ev_scanner_id ev = Some sid → sid ≠ "" →
    get_scanner_role self sid = Returned None →
    scan_case e ev self (Returned (tt, self, [Log DEBUG]))
| scan_unknown_tag (tag sid : string) (role : ScannerRole) :
    ev_tag_id ev = Some tag → tag ≠ "" →
    ev_scanner_id ev = Some sid → sid ≠ "" →
    get_scanner_role self sid = Returned (Some role) →
    garments self !! tag = None →
    scan_case e ev self
      (Returned (tt, self,
         [Log WARNING;
          BusFire EVENT_UNKNOWN_TAG
            [("tag_id", tag); ("scanner_role", role_value role)]]))
| scan_rejected (tag sid : string) (role : ScannerRole) (g : GarmentData) :
    ev_tag_id ev = Some tag → tag ≠ "" →
    ev_scanner_id ev = Some sid → sid ≠ "" →
    get_scanner_role self sid = Returned (Some role) →
    garments self !! tag = Some g →
    transition (clock e) g role sid = (g, None) →
    scan_case e ev self (Returned (tt, self, [Log DEBUG; Log DEBUG]))
| scan_accepted (tag sid : string) (role : ScannerRole) (g g' : GarmentData) :
    ev_tag_id ev = Some tag → tag ≠ "" →
    ev_scanner_id ev = Some sid → sid ≠ "" →
    get_scanner_role self sid = Returned (Some role) →
    garments self !! tag = Some g →
    transition (clock e) g role sid = (g', Some g') →
    scan_case e ev self
      (Returned (tt, with_garment tag g' self,
         Log DEBUG :: commit_trace e (with_garment tag g' self))).

(** A garment scanned at a sequence of (role, scanner id), rejected scans
    included. *)
Definition scans (now : string) (steps : list (ScannerRole * string))
    (g : GarmentData) : GarmentData :=
  foldl (λ g step, (transition now g step.1 step.2).1) g steps.

(** ** coordinator.py: loading from the store *)

(** The stored document: a dictionary that may have the keys "scanners" and
    "garments". *)
Record document : Type := mkDocument {
  doc_scanners : option (gmap string (gmap string string));
  doc_garments : option (gmap string GarmentDict)
}.

(** [self.scanners = v] and [self.garments = v]. *)
Definition set_scanners (v : gmap string (gmap string string)) : M unit := λ self,
  Returned (tt, mkState (garments self) v, []).

Definition set_garments (v : gmap string GarmentData) : M unit := λ self,
  Returned (tt, mkState v (scanners self), []).

(** One item [tag_id: GarmentData.from_dict(tag_id, gdata)] of the
    dictionary comprehension of [async_load]. *)
Definition load_garment (item : string * GarmentDict) : outcome (string * GarmentData) :=
  g ← from_dict item.1 item.2;
  mret (item.1, g).

(** [async_load], on what [self._store.async_load()] returned.  The
    comprehension runs over the items of the stored dictionary; the finite
    map lists them in its own order, which decides nothing but which of
    several failing items raises.  When the comprehension raises, the call
    raises and the coordinator is not used further. *)
Definition async_load (stored : option document) : M unit :=
  let stored := default (mkDocument (Some ∅) (Some ∅)) stored in
  set_scanners (default ∅ (doc_scanners stored));;
  let raw_garments := default ∅ (doc_garments stored) in
  loaded ← lift (comprehension load_garment (map_to_list raw_garments));
  set_garments (list_to_map loaded);;
  async_set_updated_data.

(** ** event.py *)

(** A [GarmentStateChangeEvent] entity: its tag id and the last state value
    it has seen. *)
Record GarmentStateChangeEvent : Type := mkGarmentStateChangeEvent {
  event_tag_id : string;
  _last_state : option string
}.

(** What an entity does to the entity platform. *)
Inductive entity_effect : Type :=
| TriggerEvent (event_type : string) (event_attributes : list (string * string))
| WriteHaState.

(** [GarmentStateChangeEvent.__init__]. *)
Definition new_GarmentStateChangeEvent (tag : string) : GarmentStateChangeEvent :=
  mkGarmentStateChangeEvent tag None.

(** [GarmentStateChangeEvent._handle_coordinator_update]: the entity after
    the call, and its effects. *)
Definition _handle_coordinator_update (coordinator : state)
    (self : GarmentStateChangeEvent)
  : GarmentStateChangeEvent * list entity_effect :=
  match garments coordinator !! event_tag_id self with
  | None => (self, [])
  | Some garment =>
      let current := state_value (garment_state garment) in
      let triggered :=
        match _last_state self with
        | Some last =>
            if decide (current ≠ last) then
              [TriggerEvent current
                 [("previous_state", last); ("new_state", current)]]
            else []
        | None => []
        end in
      (mkGarmentStateChangeEvent (event_tag_id self) (Some current),
       triggered ++ [WriteHaState])
  end.

(** ** select.py *)

(** [GarmentStateSelect.current_option] of the entity for [tag]. *)
Definition current_option (coordinator : state) (tag : string) : option string :=
  match garments coordinator !! tag with
  | None => None
  | Some garment => Some (state_value (garment_state garment))
  end.

(** [GarmentStateSelect.async_select_option]. *)
Definition async_select_option (e : env) (tag option : string) : M unit :=
  st ← lift (GarmentState_of_value option);
  async_force_state e tag st;;
  ret tt.

(** ** button.py *)

Record WardrobeButtonEntityDescription : Type := mkButtonDescription {
  button_key : string;
  translation_key : string;
  target_state : GarmentState
}.

Definition BUTTON_DESCRIPTIONS : list WardrobeButtonEntityDescription :=
  [ mkButtonDescription "mark_clean" "mark_clean" CLEAN;
    mkButtonDescription "mark_worn" "mark_worn" WORN ].

(** [GarmentButton.async_press] of the button of [tag] with
    [description]. *)
Definition async_press (e : env) (tag : string)
    (description : WardrobeButtonEntityDescription) : M unit :=
  async_force_state e tag (target_state description);;
  ret tt.

(** ** binary_sensor.py, select.py, event.py: one entity per garment *)

(** The entities are represented by their tag ids.  [async_setup_entry]
    creates one per key of [coordinator.garments]. *)
Definition setup_entities (coordinator : state) : list string :=
  (map_to_list (garments coordinator)).*1.

(** The listener [_async_on_data_updated]: the list [entities] after the
    call, and [new_entities]; [async_add_entities(new_entities)] is called
    when the latter is not empty. *)
Definition _async_on_data_updated (coordinator : state) (entities : list string)
  : list string * list string :=
  let known := entities in
  let new_entities :=
    filter (λ tag, tag ∉ known) (map_to_list (garments coordinator)).*1 in
  (entities ++ new_entities, new_entities).

(** ** config_flow.py: the remove-scanner step *)

(** A step of the options flow ends by aborting or with a flow result. *)
Inductive options_flow_result : Type :=
| Abort (reason : string)
| Flow (result : flow_result).

(** [coordinator.scanners.pop(scanner_id, None)]. *)
Definition pop_scanner (scanner_id : string) : M unit := λ self,
  Returned (tt, mkState (garments self) (delete scanner_id (scanners self)), []).

(** One item [sid: f"{info['name']} ({info['role']})"] of the options of the
    remove-scanner form. *)
Definition scanner_option (item : string * gmap string string)
  : outcome (string * string) :=
  name ← getitem "name" (item.2 !! "name");
  role ← getitem "role" (item.2 !! "role");
  mret (item.1, name +:+ " (" +:+ role +:+ ")").

(** [WardrobeManagerOptionsFlow.async_step_remove_scanner]; the user input,
    when there is one, is the chosen scanner id. *)
Definition async_step_remove_scanner (e : env) (user_input : option string)
  : M options_flow_result :=
  coordinator ← get_self;
  if decide (scanners coordinator = ∅) then ret (Abort "no_scanners")
  else
    match user_input with
    | Some scanner_id =>
        pop_scanner scanner_id;;
        _async_save e;;
        ret (Flow CreateEntry)
    | None =>
        scanner_options ←
          lift (comprehension scanner_option (map_to_list (scanners coordinator)));
        ret (Flow (ShowForm "remove_scanner" ∅))
    end.

(** ** Further notions used by the properties *)

(** A garment scanned at a sequence of (time, role, scanner id), rejected
    scans included. *)
Definition scan_sequence (steps : list (string * ScannerRole * string))
    (g : GarmentData) : GarmentData :=
  foldl (λ g step, (transition step.1.1 g step.1.2 step.2).1) g steps.

(** The wear counters are in order: none is negative and the count since
    the last wash is at most the total. *)
Definition counters_ok (g : GarmentData) : Prop :=
  (0 ≤ wear_count_since_wash g ≤ total_wear_count g)%Z.

(** Every garment of the directory is stored under its own tag id. *)
Definition keys_consistent (self : state) : Prop :=
  ∀ tag g, garments self !! tag = Some g → tag_id g = tag.

(** One call of a method of the coordinator that can change it, at any
    clock reading and with the store working or not. *)
Inductive coordinator_step (self self' : state) : Prop :=
| step_scan e ev trace :
    handle_tag_scanned e ev self = Returned (tt, self', trace) →
    coordinator_step self self'
| step_force_state e tag st ok trace :
    async_force_state e tag st self = Returned (ok, self', trace) →
    coordinator_step self self'
| step_log_wash_cycle e tag m ok trace :
    async_log_wash_cycle e tag m self = Returned (ok, self', trace) →
    coordinator_step self self'
| step_register_garment e tag n c col thr g trace :
    async_register_garment e tag n c col thr self = Returned (g, self', trace) →
    coordinator_step self self'
| step_remove_garment e tag ok trace :
    async_remove_garment e tag self = Returned (ok, self', trace) →
    coordinator_step self self'
| step_register_scanner e sid role n trace :
    async_register_scanner e sid role n self = Returned (tt, self', trace) →
    coordinator_step self self'.

(** ** Stored data as Python reads it: values of any type

    The store hands back parsed JSON, a [dict[str, Any]]: nothing checks
    that a value has the type its key is annotated with.  The definitions
    below follow [from_dict] and [async_load] on such values; the typed
    [GarmentDict] above is the special case in which every key that is
    present holds a value of its annotated type (see [from_dict_py_typed]
    in the properties). *)

#[local] Unset Elimination Schemes.
Inductive pyval : Type :=
| PyNone
| PyBool (b : bool)
| PyInt (z : Z)
| PyFloat (repr : string)
| PyStr (s : string)
| PyList (elements : list pyval)
| PyDict (items : list (string * pyval)).
#[local] Set Elimination Schemes.

(** The exceptions an operation on such a value raises; [ValueError]
    carries the offending value. *)
Inductive py_exn : Type :=
| PyKeyError (key : string)
| PyValueError (value : pyval)
| PyTypeError
| PyAttributeError.

Inductive py_outcome (A : Type) : Type :=
| PyReturned (a : A)
| PyRaised (e : py_exn).
Arguments PyReturned {A} a.
Arguments PyRaised {A} e.

Definition py_outcome_bind {A B} (m : py_outcome A) (k : A → py_outcome B)
  : py_outcome B :=
  match m with
  | PyReturned a => k a
  | PyRaised e => PyRaised e
  end.

#[export] Instance py_outcome_ret : MRet py_outcome := @PyReturned.
#[export] Instance py_outcome_mbind : MBind py_outcome :=
  λ A B k m, py_outcome_bind m k.


(** The entry of a dictionary under a key; the keys of a dictionary are
    pairwise distinct, so the first entry found is the entry. *)
Fixpoint py_lookup (key : string) (items : list (string * pyval)) : option pyval :=
  match items with
  | [] => None
  | (k, v) :: items => if String.eqb key k then Some v else py_lookup key items
  end.

(** [v[key]] for a string [key]: [KeyError] on a dictionary without the
    key, [TypeError] on everything that is not a dictionary (None, numbers
    and booleans are not subscriptable, strings and lists take integer
    indices). *)
Definition py_subscript (v : pyval) (key : string) : py_outcome pyval :=
  match v with
  | PyDict items =>
      match py_lookup key items with
      | Some x => PyReturned x
      | None => PyRaised (PyKeyError key)
      end
  | _ => PyRaised PyTypeError
  end.

(** [d.get(key, default)] on a dictionary [d]. *)
Definition py_get (d : pyval) (key : string) (dflt : pyval) : pyval :=
  match d with
  | PyDict items => default dflt (py_lookup key items)
  | _ => dflt
  end.

(** What [for x in v] iterates over: the elements of a list, the keys of a
    dictionary, the one-character strings of a string; [TypeError] on
    None, numbers and booleans. *)
Definition py_iter (v : pyval) : py_outcome (list pyval) :=
  match v with
  | PyList elements => PyReturned elements
  | PyDict items => PyReturned (PyStr <$> items.*1)
  | PyStr s =>
      PyReturned ((λ c, PyStr (String c EmptyString)) <$> String.list_ascii_of_string s)
  | _ => PyRaised PyTypeError
  end.

(** [d.items()]: [AttributeError] on everything that is not a
    dictionary. *)
Definition py_items (v : pyval) : py_outcome (list (string * pyval)) :=
  match v with
  | PyDict items => PyReturned items
  | _ => PyRaised PyAttributeError
  end.

(** A comprehension whose body may raise. *)
Fixpoint py_comprehension {A B} (f : A → py_outcome B) (l : list A)
  : py_outcome (list B) :=
  match l with
  | [] => PyReturned []
  | x :: l' =>
      py_outcome_bind (f x) (λ y,
      py_outcome_bind (py_comprehension f l') (λ ys, PyReturned (y :: ys)))
  end.

(** [GarmentState(v)]: the member whose value equals [v]; no member equals
    a value that is not a string. *)
Definition GarmentState_of_py (v : pyval) : py_outcome GarmentState :=
  match v with
  | PyStr s =>
      match GarmentState_of_value s with
      | Returned st => PyReturned st
      | Raised _ => PyRaised (PyValueError v)
      end
  | _ => PyRaised (PyValueError v)
  end.

(** A [WashCycle] and a [GarmentData] whose attributes hold whatever the
    dictionary held: the dataclass constructors check no type. *)
Record RawWashCycle : Type := mkRawWashCycle {
  raw_timestamp : pyval;
  raw_method : pyval
}.

Record RawGarmentData : Type := mkRawGarmentData {
  raw_tag_id : string;
  raw_name : pyval;
  raw_category : pyval;
  raw_color : pyval;
  raw_garment_state : GarmentState;
  raw_wear_count_since_wash : pyval;
  raw_total_wear_count : pyval;
  raw_needs_washing_threshold : pyval;
  raw_last_worn : pyval;
  raw_last_washed : pyval;
  raw_last_scanned_at : pyval;
  raw_wash_cycles : list RawWashCycle
}.

(** [WashCycle(timestamp=wc["timestamp"], method=wc["method"])]. *)
Definition WashCycle_from_py (wc : pyval) : py_outcome RawWashCycle :=
  ts ← py_subscript wc "timestamp";
  m ← py_subscript wc "method";
  mret (mkRawWashCycle ts m).

(** [GarmentData.from_dict(tag_id, data)] on any [data]. *)
Definition from_dict_py (tag : string) (data : pyval) : py_outcome RawGarmentData :=
  name ← py_subscript data "name";
  category ← py_subscript data "category";
  let color := py_get data "color" (PyStr "") in
  garment_state ←
    GarmentState_of_py (py_get data "garment_state" (PyStr "clean"));
  let wear_count_since_wash := py_get data "wear_count_since_wash" (PyInt 0) in
  let total_wear_count := py_get data "total_wear_count" (PyInt 0) in
  let needs_washing_threshold :=
    py_get data "needs_washing_threshold" (PyInt 3) in
  let last_worn := py_get data "last_worn" PyNone in
  let last_washed := py_get data "last_washed" PyNone in
  let last_scanned_at := py_get data "last_scanned_at" PyNone in
  cycles ← py_iter (py_get data "wash_cycles" (PyList []));
  wash_cycles ← py_comprehension WashCycle_from_py cycles;
  mret (mkRawGarmentData tag name category color garment_state
          wear_count_since_wash total_wear_count needs_washing_threshold
          last_worn last_washed last_scanned_at wash_cycles).

(** What [async_load] assigns to [self.scanners] and [self.garments] (the
    items of the new dictionary), or the exception it raises, on a stored
    document of any content. *)
Definition async_load_py (stored : option (list (string * pyval)))
  : py_outcome (pyval * list (string * RawGarmentData)) :=
  let stored :=
    PyDict (default [("scanners", PyDict []); ("garments", PyDict [])] stored) in
  let scanners := py_get stored "scanners" (PyDict []) in
  let raw_garments := py_get stored "garments" (PyDict []) in
  items ← py_items raw_garments;
  garments ←
    py_comprehension
      (λ item, g ← from_dict_py item.1 item.2; mret (item.1, g)) items;
  mret (scanners, garments).

(** *** The typed dictionaries among the untyped values *)










(** *** The dictionaries that [from_dict] accepts *)




(** * Properties *)

(** ** The transition table *)

Lemma all_pairs_complete (r : ScannerRole) (s : GarmentState) : In (r, s) all_pairs.
Proof. destruct r, s; vm_compute; tauto. Qed.

Lemma all_pairs_length : length all_pairs = 30.
Proof. reflexivity. Qed.

Lemma TRANSITIONS_length : length TRANSITIONS = 10.
Proof. reflexivity. Qed.

Lemma TRANSITIONS_keys_NoDup : NoDup table_keys.
Proof. apply (bool_decide_unpack _). vm_compute. exact I. Qed.

(** A dictionary lookup finds exactly the entries of the literal. *)
Lemma TRANSITIONS_get_Some (r : ScannerRole) (s t : GarmentState) :
  TRANSITIONS_get (r, s) = Some t ↔ In ((r, s), t) TRANSITIONS.
Proof.
  split.
  - destruct r, s; vm_compute; intros [= <-]; tauto.
  - vm_compute. intros H.
    repeat (destruct H as [[= <- <- <-] | H]; [reflexivity |]). destruct H.
Qed.

Lemma TRANSITIONS_get_None (r : ScannerRole) (s : GarmentState) :
  TRANSITIONS_get (r, s) = None ↔ ¬ In (r, s) table_keys.
Proof.
  split.
  - destruct r, s; vm_compute; intros [=]; intuition discriminate.
  - destruct r, s; vm_compute; intros H; try reflexivity; exfalso; tauto.
Qed.

Lemma non_table_pairs_spec (r : ScannerRole) (s : GarmentState) :
  In (r, s) non_table_pairs ↔ ¬ In (r, s) table_keys.
Proof.
  unfold non_table_pairs. rewrite <- !list_elem_of_In, list_elem_of_filter.
  rewrite !list_elem_of_In. split; [tauto |].
  intros H. split; [exact H | apply all_pairs_complete].
Qed.

(** What an accepted transition does to the garment, case by case on the
    target state. *)
Lemma transition_accepted (now sid : string) (g : GarmentData)
    (r : ScannerRole) (t : GarmentState) :
  TRANSITIONS_get (r, garment_state g) = Some t →
  transition now g r sid =
    let g' :=
      match t with
      | WORN =>
          mkGarmentData (tag_id g) (name g) (category g) (color g) WORN
            (wear_count_since_wash g + 1) (total_wear_count g + 1)
            (needs_washing_threshold g)
            (Some now) (last_washed g) (Some sid) (wash_cycles g)
      | WASHING =>
          mkGarmentData (tag_id g) (name g) (category g) (color g) WASHING
            0 (total_wear_count g) (needs_washing_threshold g)
            (last_worn g) (Some now) (Some sid)
            (wash_cycles g ++ [mkWashCycle now "machine"])
      | _ =>
          mkGarmentData (tag_id g) (name g) (category g) (color g) t
            (wear_count_since_wash g) (total_wear_count g)
            (needs_washing_threshold g)
            (last_worn g) (last_washed g) (Some sid) (wash_cycles g)
      end in
    (g', Some g').
Proof.
  intros Hget. unfold transition. rewrite Hget.
  destruct t; reflexivity.
Qed.

Lemma transition_rejected (now sid : string) (g : GarmentData) (r : ScannerRole) :
  TRANSITIONS_get (r, garment_state g) = None →
  transition now g r sid = (g, None).
Proof. intros Hget. unfold transition. by rewrite Hget. Qed.

(** C1. For each of the ten rows (scanner role, from state, to state) of the
    transition table, [transition] on a garment whose state is the from
    state is accepted: it returns the garment, whose state is then the
    tabulated target and whose [last_scanned_at] is the supplied scanner
    id. *)
Theorem transition_table_rows_accepted
    (r : ScannerRole) (s t : GarmentState)
    (now sid : string) (g : GarmentData) :
  In (r, s, t)
     [ (CLOSET, CLEAN, WORN);
       (CLOSET, WORN, CLEAN);
       (CLOSET, IN_LAUNDRY_BIN, CLEAN);
       (CLOSET, DRYING, CLEAN);
       (CLOSET, NEEDS_IRONING, CLEAN);
       (LAUNDRY_BIN, WORN, IN_LAUNDRY_BIN);
       (WASHER, IN_LAUNDRY_BIN, WASHING);
       (DRYER, WASHING, DRYING);
       (IRONING, DRYING, NEEDS_IRONING);
       (IRONING, WASHING, NEEDS_IRONING) ] →
  garment_state g = s →
  ∃ g', transition now g r sid = (g', Some g')
        ∧ garment_state g' = t
        ∧ last_scanned_at g' = Some sid.
Proof.
  intros Hrow Hs.
  assert (Hget : TRANSITIONS_get (r, garment_state g) = Some t).
  { rewrite Hs. apply TRANSITIONS_get_Some. exact Hrow. }
  rewrite (transition_accepted now sid g r t Hget).
  eexists. split; [reflexivity |]. destruct t; split; reflexivity.
Qed.

Lemma transition_table_rows_accepted_witness :
  ∃ g', transition "2026-02-25T08:30:00+00:00"
          (mkGarmentData "test123" "Test Shirt" "shirt" "white" IN_LAUNDRY_BIN
             5 10 3 None None None [])
          WASHER "nfc_washer" = (g', Some g')
        ∧ garment_state g' = WASHING
        ∧ last_scanned_at g' = Some "nfc_washer".
Proof.
  apply (transition_table_rows_accepted WASHER IN_LAUNDRY_BIN WASHING).
  - simpl. tauto.
  - reflexivity.
Defined.

(** C2, as stated, counts 35 pairs outside the table; there are 20. *)
Lemma non_table_pairs_not_35 : length non_table_pairs ≠ 35.
Proof. vm_compute. discriminate. Qed.

(** C2 (amended: 20 pairs, not 35). Of the 30 (role, state) pairs, exactly
    20 are not a key of the table.  On a garment whose (role, state) pair is
    one of them, [transition] returns [None] and leaves the garment object
    equal to what it was in every field, and a second call on the same
    input is rejected again and leaves the object as it was. *)
Theorem transition_rejects_outside_table :
  length non_table_pairs = 20
  ∧ (∀ r s, In (r, s) non_table_pairs ↔ ¬ In (r, s) table_keys)
  ∧ ∀ (now now2 sid : string) (g : GarmentData) (r : ScannerRole),
      ¬ In (r, garment_state g) table_keys →
      transition now g r sid = (g, None)
      ∧ transition now2 (transition now g r sid).1 r sid = (g, None).
Proof.
  split; [reflexivity |]. split; [apply non_table_pairs_spec |].
  intros now now2 sid g r Hkey.
  apply TRANSITIONS_get_None in Hkey.
  rewrite !(transition_rejected now sid g r Hkey). simpl.
  split; [reflexivity |]. apply transition_rejected, Hkey.
Qed.

Lemma transition_rejects_outside_table_witness :
  let g := mkGarmentData "test123" "Test Shirt" "shirt" "white" CLEAN
             2 0 3 None None None [] in
  transition "t1" g WASHER "nfc_washer" = (g, None)
  ∧ transition "t2" (transition "t1" g WASHER "nfc_washer").1 WASHER "nfc_washer"
    = (g, None).
Proof.
  intros g.
  apply (proj2 (proj2 transition_rejects_outside_table)).
  vm_compute. intuition discriminate.
Defined.

(** C3. On an accepted transition the garment becomes, besides the new state
    and [last_scanned_at]: for target "worn", both counters plus one and
    [last_worn] the current time; for target "washing",
    [wear_count_since_wash] zero, [total_wear_count] as it was,
    [last_washed] the current time and one wash-cycle record
    (now, "machine") appended; for any other target nothing else.  The
    three cases exclude each other, so no transition applies both blocks. *)
Theorem transition_side_effects
    (now sid : string) (g g' : GarmentData) (r : ScannerRole) :
  transition now g r sid = (g', Some g') →
  last_scanned_at g' = Some sid
  ∧ tag_id g' = tag_id g ∧ name g' = name g ∧ category g' = category g
  ∧ color g' = color g ∧ needs_washing_threshold g' = needs_washing_threshold g
  ∧ (garment_state g' = WORN →
       wear_count_since_wash g' = (wear_count_since_wash g + 1)%Z
       ∧ total_wear_count g' = (total_wear_count g + 1)%Z
       ∧ last_worn g' = Some now
       ∧ last_washed g' = last_washed g
       ∧ wash_cycles g' = wash_cycles g)
  ∧ (garment_state g' = WASHING →
       wear_count_since_wash g' = 0%Z
       ∧ total_wear_count g' = total_wear_count g
       ∧ last_washed g' = Some now
       ∧ wash_cycles g' = wash_cycles g ++ [mkWashCycle now "machine"]
       ∧ last_worn g' = last_worn g)
  ∧ (garment_state g' ≠ WORN → garment_state g' ≠ WASHING →
       wear_count_since_wash g' = wear_count_since_wash g
       ∧ total_wear_count g' = total_wear_count g
       ∧ last_worn g' = last_worn g
       ∧ last_washed g' = last_washed g
       ∧ wash_cycles g' = wash_cycles g).
Proof.
  intros Htr.
  destruct (TRANSITIONS_get (r, garment_state g)) as [t|] eqn:Hget.
  - rewrite (transition_accepted now sid g r t Hget) in Htr.
    simpl in Htr. injection Htr as <-.
    destruct t; simpl; repeat split; try reflexivity; try discriminate;
      intros; congruence.
  - rewrite (transition_rejected now sid g r Hget) in Htr. discriminate.
Qed.

Lemma transition_side_effects_witness :
  let g := mkGarmentData "test123" "Test Shirt" "shirt" "white" IN_LAUNDRY_BIN
             5 20 3 (Some "t0") None (Some "nfc_bin") [] in
  let g' := (transition "t1" g WASHER "nfc_washer").1 in
  garment_state g' = WASHING
  ∧ wear_count_since_wash g' = 0%Z
  ∧ total_wear_count g' = 20%Z
  ∧ last_washed g' = Some "t1"
  ∧ wash_cycles g' = [mkWashCycle "t1" "machine"]
  ∧ last_worn g' = Some "t0".
Proof.
  intros g g'.
  split; [reflexivity |].
  apply (transition_side_effects "t1" "nfc_washer" g g' WASHER);
    reflexivity.
Defined.

(** [ScannerRole(v)] raises nothing but [ValueError]. *)
Lemma ScannerRole_of_value_cases (v : string) :
  (∃ r, ScannerRole_of_value v = Returned r ∧ role_value r = v)
  ∨ ScannerRole_of_value v = Raised (ValueError v).
Proof.
  unfold ScannerRole_of_value.
  destruct (list_find _ _) as [[i r]|] eqn:Hfind; [left | by right].
  apply list_find_Some in Hfind as (_ & Hv & _). eauto.
Qed.

(** [get_scanner_role] catches what its body can raise. *)
Lemma get_scanner_role_returns (self : state) (scanner_id : string) :
  returns_normally (get_scanner_role self scanner_id).
Proof.
  unfold get_scanner_role, returns_normally.
  destruct (scanners self !! scanner_id) as [scanner|]; [| eauto].
  destruct (scanner !! "role") as [v|]; simpl; [| eauto].
  destruct (ScannerRole_of_value_cases v) as [(r & -> & _) | ->]; simpl; eauto.
Qed.

(** A scanner id resolves to a role only through an entry of the scanner
    directory whose "role" is the value of that role. *)
Lemma get_scanner_role_Some (self : state) (scanner_id : string) (r : ScannerRole) :
  get_scanner_role self scanner_id = Returned (Some r) ↔
  ∃ scanner, scanners self !! scanner_id = Some scanner
             ∧ scanner !! "role" = Some (role_value r).
Proof.
  unfold get_scanner_role. split.
  - destruct (scanners self !! scanner_id) as [scanner|]; [| discriminate].
    destruct (scanner !! "role") as [v|] eqn:Hrole; simpl; [| discriminate].
    destruct (ScannerRole_of_value_cases v) as [(r' & -> & <-) | ->]; simpl;
      [| discriminate].
    intros [= ->]. eauto.
  - intros (scanner & -> & ->). simpl. by destruct r.
Qed.

(** ** The coordinator's methods, evaluated *)

Section coordinator_equations.

Context (e : env).

Ltac unfold_M :=
  unfold mbind, mret, M_bind, M_ret, bind, ret, get_self, emit, lift,
    set_garment, del_garment, set_scanner, _async_save, try_except,
    store_async_save, async_set_updated_data, commit_trace, save_trace,
    with_garment, async_get_or_create_garment_device in *;
  simpl in *.

Lemma _async_save_eq (self : state) :
  _async_save e self = Returned (tt, self, save_trace e self).
Proof. unfold_M. by destruct (store_save_raises e). Qed.

Lemma with_garment_id (tag : string) (g : GarmentData) (self : state) :
  garments self !! tag = Some g → with_garment tag g self = self.
Proof.
  intros Hg. destruct self as [gs ss]. unfold with_garment. simpl in *.
  by rewrite insert_id.
Qed.

Lemma async_force_state_eq (tag : string) (st : GarmentState) (self : state) :
  async_force_state e tag st self =
    match garments self !! tag with
    | None => Returned (false, self, [])
    | Some g =>
        let self' := with_garment tag (set_garment_state st g) self in
        Returned (true, self', commit_trace e self')
    end.
Proof.
  unfold async_force_state. unfold_M.
  destruct (garments self !! tag); [| reflexivity].
  by destruct (store_save_raises e).
Qed.

Lemma async_log_wash_cycle_eq (tag method : string) (self : state) :
  async_log_wash_cycle e tag method self =
    match garments self !! tag with
    | None => Returned (false, self, [])
    | Some g =>
        let self' :=
          with_garment tag (log_wash_cycle_garment (clock e) method g) self in
        Returned (true, self', commit_trace e self')
    end.
Proof.
  unfold async_log_wash_cycle. unfold_M.
  destruct (garments self !! tag); [| reflexivity].
  by destruct (store_save_raises e).
Qed.

Lemma async_register_garment_eq
    (tag name category color : string) (threshold : Z) (self : state) :
  async_register_garment e tag name category color threshold self =
    let g := new_GarmentData tag name category color threshold in
    let self' := with_garment tag g self in
    Returned (g, self', commit_trace e self').
Proof.
  unfold async_register_garment. unfold_M.
  by destruct (store_save_raises e).
Qed.

Lemma handle_register_garment_eq (call : garment_form) (self : state) :
  handle_register_garment e call self =
    let g :=
      new_GarmentData (f_tag_id call) (f_garment_name call) (f_category call)
        (default "" (f_color call))
        (default DEFAULT_NEEDS_WASHING_THRESHOLD (f_needs_washing_threshold call)) in
    let self' := with_garment (f_tag_id call) g self in
    Returned (tt, self',
              commit_trace e self'
              ++ [DeviceGetOrCreate (f_tag_id call) (f_garment_name call)
                    (f_category call)]).
Proof.
  unfold handle_register_garment. unfold_M.
  rewrite async_register_garment_eq. reflexivity.
Qed.

(** The add-garment step of the options flow refuses a tag that is already
    registered: the records it finds stay as they are. *)
Lemma async_step_add_garment_keeps_records
    (user_input : option garment_form) (self : state)
    (tag : string) (g : GarmentData) :
  garments self !! tag = Some g →
  ∃ result self' trace,
    async_step_add_garment e user_input self = Returned (result, self', trace)
    ∧ garments self' !! tag = Some g.
Proof.
  intros Hg. unfold async_step_add_garment.
  destruct user_input as [ui|]; [| by exists (ShowForm "add_garment" ∅), self, []].
  unfold mbind, M_bind, bind, get_self. simpl.
  destruct (decide (is_Some (garments self !! f_tag_id ui))) as [Hin|Hout].
  - simpl. by do 3 eexists.
  - rewrite async_register_garment_eq. simpl. do 3 eexists.
    split; [reflexivity |].
    unfold with_garment. simpl. rewrite lookup_insert_ne; [exact Hg |].
    intros Heq. apply Hout. rewrite Heq, Hg. by eexists.
Qed.

Lemma handle_tag_scanned_case (ev : scan_event) (self : state) :
  scan_case e ev self (handle_tag_scanned e ev self).
Proof.
  unfold handle_tag_scanned.
  destruct ev as [[tag|] [sid|]]; simpl;
    try (apply scan_missing; simpl; by rewrite ?orb_true_r).
  destruct (decide (tag = "")) as [->|Htag].
  { apply scan_missing. reflexivity. }
  destruct (decide (sid = "")) as [->|Hsid].
  { rewrite orb_true_r. apply scan_missing. simpl. by rewrite orb_true_r. }
  rewrite !bool_decide_false by done. simpl.
  destruct (get_scanner_role_returns self sid) as [[role|] Hrole].
  2: { unfold_M. rewrite Hrole.
       by apply (scan_unregistered _ _ _ tag sid). }
  destruct (garments self !! tag) as [g|] eqn:Hg.
  2: { unfold_M. rewrite Hrole, Hg.
       by apply (scan_unknown_tag _ _ _ tag sid role). }
  destruct (TRANSITIONS_get (role, garment_state g)) as [t|] eqn:Hget.
  - pose proof (transition_accepted (clock e) sid g role t Hget) as Htr.
    simpl in Htr.
    pose proof (scan_accepted e
                  {| ev_tag_id := Some tag; ev_scanner_id := Some sid |} self
                  tag sid role g _ eq_refl Htag eq_refl Hsid Hrole Hg Htr)
      as Hcase.
    unfold_M. rewrite Hrole, Hg, Htr. simpl. revert Hcase.
    destruct (store_save_raises e); simpl; auto.
  - pose proof (transition_rejected (clock e) sid g role Hget) as Htr.
    pose proof (scan_rejected e
                  {| ev_tag_id := Some tag; ev_scanner_id := Some sid |} self
                  tag sid role g eq_refl Htag eq_refl Hsid Hrole Hg Htr)
      as Hcase.
    pose proof (with_garment_id tag g self Hg) as Hid.
    unfold_M. rewrite Hrole, Hg, Htr. simpl. by rewrite Hid.
Qed.

End coordinator_equations.

(** ** Serialization *)

Lemma GarmentState_of_value_state_value (s : GarmentState) :
  GarmentState_of_value (state_value s) = Returned s.
Proof. by destruct s. Qed.

(** [GarmentState(v)] returns exactly on the six values, and raises
    [ValueError] otherwise. *)
Lemma GarmentState_of_value_cases (v : string) :
  (∃ s, GarmentState_of_value v = Returned s ∧ state_value s = v)
  ∨ (GarmentState_of_value v = Raised (ValueError v)
     ∧ ∀ s, state_value s ≠ v).
Proof.
  unfold GarmentState_of_value.
  destruct (list_find _ _) as [[i s]|] eqn:Hfind.
  - left. apply list_find_Some in Hfind as (_ & Hv & _). eauto.
  - right. split; [reflexivity |]. intros s Hs.
    rewrite list_find_None, Forall_forall in Hfind.
    apply (Hfind s); [| exact Hs].
    apply list_elem_of_In. destruct s; vm_compute; tauto.
Qed.

Lemma WashCycle_roundtrip (wc : WashCycle) :
  WashCycle_from_dict (WashCycle_to_dict wc) = Returned wc.
Proof. by destruct wc. Qed.

Lemma wash_cycles_roundtrip (l : list WashCycle) :
  comprehension WashCycle_from_dict (WashCycle_to_dict <$> l) = Returned l.
Proof.
  induction l as [|wc l IH]; [reflexivity |].
  rewrite fmap_cons. cbn [comprehension].
  rewrite WashCycle_roundtrip. cbn [outcome_bind].
  by rewrite IH.
Qed.

Lemma comprehension_returns {A B} (f : A → outcome B) (l : list A) :
  returns_normally (comprehension f l) ↔ Forall (λ x, returns_normally (f x)) l.
Proof.
  induction l as [|x l IH]; simpl.
  - split; [constructor | by eexists].
  - rewrite Forall_cons, <- IH. unfold returns_normally.
    destruct (f x) as [y|ex]; simpl.
    + destruct (comprehension f l) as [ys|ex]; simpl.
      * split; eauto.
      * split; [intros [? [=]] | intros [_ [? [=]]]].
    + split; [intros [? [=]] | intros [[? [=]] _]].
Qed.

Lemma WashCycle_from_dict_returns (wc : WashCycleDict) :
  returns_normally (WashCycle_from_dict wc)
  ↔ is_Some (d_timestamp wc) ∧ is_Some (d_method wc).
Proof.
  destruct wc as [[ts|] [m|]]; unfold returns_normally, is_Some; simpl;
    split; intros H; try (by eauto);
    [destruct H as [? [=]] | destruct H as (_ & ? & [=])
    | destruct H as [? [=]] | destruct H as ([? [=]] & _)
    | destruct H as [? [=]] | destruct H as ([? [=]] & _)].
Qed.

Lemma from_dict_returns (tag : string) (data : GarmentDict) :
  returns_normally (from_dict tag data) ↔ decodable data.
Proof.
  unfold decodable, from_dict.
  destruct (d_name data) as [n|]; simpl.
  2: { split; [intros [? [=]] | intros [[? [=]] _]]. }
  destruct (d_category data) as [c|]; simpl.
  2: { split; [intros [? [=]] | intros (_ & [? [=]] & _)]. }
  destruct (GarmentState_of_value_cases (default "clean" (d_garment_state data)))
    as [(s & -> & Hs) | [-> Hs]]; simpl.
  2: { split; [intros [? [=]] | intros (_ & _ & [s Hs'] & _); by apply Hs in Hs'].
  }
  pose proof (comprehension_returns WashCycle_from_dict
                (default [] (d_wash_cycles data))) as Hwc.
  setoid_rewrite WashCycle_from_dict_returns in Hwc.
  rewrite <- Hwc. unfold returns_normally.
  destruct (comprehension _ _) as [wcs|ex]; simpl.
  - split; [intros _ | intros _; by eexists].
    repeat split; eauto.
  - split; [intros [? [=]] | intros (_ & _ & _ & [? [=]])].
Qed.

(** C6. Encoding a garment with [to_dict] and decoding the result with
    [from_dict] under the garment's own tag id gives back the garment,
    equal in every field, whatever its [wash_cycles] list holds. *)
Theorem from_dict_to_dict (g : GarmentData) :
  from_dict (tag_id g) (to_dict g) = Returned g.
Proof.
  destruct g as [tag n c col st w tw thr lw lwa ls wcs].
  unfold from_dict, to_dict. simpl.
  rewrite GarmentState_of_value_state_value. simpl.
  by rewrite wash_cycles_roundtrip.
Qed.

Example round_trip_test :
  let g := mkGarmentData "test123" "Test Shirt" "shirt" "white" WORN 3 10 3
             (Some "2026-02-25T08:30:00+00:00") (Some "2026-02-20T11:00:00+00:00")
             (Some "nfc_closet")
             [mkWashCycle "2026-02-20T11:00:00+00:00" "machine_30"] in
  from_dict "test123" (to_dict g) = Returned g.
Proof. reflexivity. Qed.


(** *** [from_dict] on values of any type *)











(** *** The typed [from_dict] is the untyped one on typed dictionaries *)








Lemma to_dict_decodable (g : GarmentData) : decodable (to_dict g).
Proof.
  unfold decodable, to_dict. simpl.
  split; [by eexists |]. split; [by eexists |].
  split; [by exists (garment_state g) |].
  apply Forall_fmap, Forall_true. intros wc. simpl. split; by eexists.
Qed.


Example from_dict_py_null_wash_cycles :
  from_dict_py "tag1"
    (PyDict [("name", PyStr "Shirt"); ("category", PyStr "shirt");
             ("wash_cycles", PyNone)])
  = PyRaised PyTypeError.
Proof. reflexivity. Qed.

Example from_dict_py_untyped_fields :
  from_dict_py "tag1"
    (PyDict [("name", PyInt 5); ("category", PyNone); ("color", PyNone)])
  = PyReturned
      (mkRawGarmentData "tag1" (PyInt 5) PyNone PyNone CLEAN
         (PyInt 0) (PyInt 0) (PyInt 3) PyNone PyNone PyNone []).
Proof. reflexivity. Qed.



(** ** The needs-washing sensor *)

(** C10. The needs-washing indicator of a tag with a garment record is on
    exactly when [wear_count_since_wash] is at least
    [needs_washing_threshold], so also when the two are equal; for a tag
    with no garment record it is [None]. *)
Theorem is_on_threshold (coordinator : state) (tag : string) :
  (garments coordinator !! tag = None → is_on coordinator tag = None)
  ∧ (∀ g, garments coordinator !! tag = Some g →
       (∃ b, is_on coordinator tag = Some b
             ∧ (b = true ↔
                (needs_washing_threshold g ≤ wear_count_since_wash g)%Z))
       ∧ (wear_count_since_wash g = needs_washing_threshold g →
          is_on coordinator tag = Some true)).
Proof.
  unfold is_on. split; [by intros -> |].
  intros g ->. split.
  - eexists. split; [reflexivity |]. apply Z.geb_le.
  - intros ->. f_equal. apply Z.geb_le. lia.
Qed.

Lemma is_on_threshold_witness :
  let g := mkGarmentData "test123" "Test Shirt" "shirt" "white" WORN
             3 10 3 None None None [] in
  is_on (mkState {["test123" := g]} ∅) "test123" = Some true.
Proof.
  intros g.
  apply (proj2 (is_on_threshold (mkState {["test123" := g]} ∅) "test123") g);
    reflexivity.
Defined.

(** ** Manual overrides *)

Lemma lookup_with_garment (tag0 tag : string) (g0 : GarmentData) (self : state) :
  garments (with_garment tag0 g0 self) !! tag =
    if decide (tag0 = tag) then Some g0 else garments self !! tag.
Proof. unfold with_garment. simpl. apply lookup_insert. Qed.

(** C7. Force-state on a tag of the garment directory returns [True] and
    leaves the garment with the requested state, whichever of the six it
    is, and with every other field as it was; the other garments and the
    scanners are as they were.  On a tag that is not in the directory it
    returns [False] and changes nothing. *)
Theorem async_force_state_frame
    (e : env) (tag : string) (st : GarmentState) (self : state) :
  (∀ g, garments self !! tag = Some g →
     ∃ self' trace,
       async_force_state e tag st self = Returned (true, self', trace)
       ∧ garments self' !! tag =
           Some (mkGarmentData (tag_id g) (name g) (category g) (color g) st
                   (wear_count_since_wash g) (total_wear_count g)
                   (needs_washing_threshold g)
                   (last_worn g) (last_washed g) (last_scanned_at g)
                   (wash_cycles g))
       ∧ (∀ tag', tag' ≠ tag → garments self' !! tag' = garments self !! tag')
       ∧ scanners self' = scanners self)
  ∧ (garments self !! tag = None →
     async_force_state e tag st self = Returned (false, self, [])).
Proof.
  rewrite async_force_state_eq. split.
  - intros g ->. simpl. do 2 eexists. split; [reflexivity |].
    split; [| split; [| reflexivity]].
    + rewrite lookup_with_garment. by rewrite decide_True.
    + intros tag' Hne. rewrite lookup_with_garment. by rewrite decide_False.
  - by intros ->.
Qed.

Lemma async_force_state_frame_witness :
  let g := mkGarmentData "test123" "Test Shirt" "shirt" "white" CLEAN
             2 7 3 (Some "t0") None (Some "nfc_closet") [] in
  let self := mkState {["test123" := g]} ∅ in
  (∃ self' trace,
     async_force_state (mkEnv "t1" false) "test123" WASHING self
       = Returned (true, self', trace)
     ∧ garments self' !! "test123" =
         Some (mkGarmentData "test123" "Test Shirt" "shirt" "white" WASHING
                 2 7 3 (Some "t0") None (Some "nfc_closet") [])
     ∧ (∀ tag', tag' ≠ "test123" → garments self' !! tag' = garments self !! tag')
     ∧ scanners self' = scanners self)
  ∧ async_force_state (mkEnv "t1" false) "other" WASHING self
    = Returned (false, self, []).
Proof.
  intros g self. split.
  - apply (proj1 (async_force_state_frame
                    (mkEnv "t1" false) "test123" WASHING self) g).
    reflexivity.
  - apply (proj2 (async_force_state_frame
                    (mkEnv "t1" false) "other" WASHING self)).
    reflexivity.
Defined.

(** The scan-triggered transition into "washing" is the new state, the
    scan's [last_scanned_at] and the washing side effects with method
    "machine". *)
Lemma transition_washing_effects
    (now sid : string) (g : GarmentData) (r : ScannerRole) :
  TRANSITIONS_get (r, garment_state g) = Some WASHING →
  (transition now g r sid).1 =
    spec_washing_effects now "machine"
      (set_last_scanned_at (Some sid) (set_garment_state WASHING g)).
Proof.
  intros Hget. by rewrite (transition_accepted now sid g r WASHING Hget).
Qed.

(** C8. The manual wash log with method [m] on a tag of the garment
    directory, from any state, returns [True] and leaves the garment in
    state "washing", with [wear_count_since_wash] zero, [last_washed] the
    current time, one wash-cycle record (now, m) appended and every other
    field as it was.  These are the washing side effects of the
    specification with label [m], applied after the state change; the
    scan-triggered transition into "washing" applies the same effects with
    label "machine" (and sets [last_scanned_at], which the manual log does
    not).  On a tag that is not in the directory it returns [False] and
    changes nothing. *)
Theorem async_log_wash_cycle_effect
    (e : env) (tag m : string) (self : state) :
  (∀ g, garments self !! tag = Some g →
     let g' :=
       mkGarmentData (tag_id g) (name g) (category g) (color g) WASHING
         0 (total_wear_count g) (needs_washing_threshold g)
         (last_worn g) (Some (clock e)) (last_scanned_at g)
         (wash_cycles g ++ [mkWashCycle (clock e) m]) in
     (∃ self' trace,
        async_log_wash_cycle e tag m self = Returned (true, self', trace)
        ∧ garments self' !! tag = Some g'
        ∧ (∀ tag', tag' ≠ tag → garments self' !! tag' = garments self !! tag')
        ∧ scanners self' = scanners self)
     ∧ g' = spec_washing_effects (clock e) m (set_garment_state WASHING g)
     ∧ (∀ r sid,
          TRANSITIONS_get (r, garment_state g) = Some WASHING →
          (transition (clock e) g r sid).1 =
            spec_washing_effects (clock e) "machine"
              (set_last_scanned_at (Some sid) (set_garment_state WASHING g))))
  ∧ (garments self !! tag = None →
     async_log_wash_cycle e tag m self = Returned (false, self, [])).
Proof.
  rewrite async_log_wash_cycle_eq. split.
  - intros g ->. simpl. split; [| split].
    + do 2 eexists. split; [reflexivity |].
      split; [| split; [| reflexivity]].
      * rewrite lookup_with_garment. by rewrite decide_True.
      * intros tag' Hne. rewrite lookup_with_garment. by rewrite decide_False.
    + reflexivity.
    + intros r sid Hget. by apply transition_washing_effects.
  - by intros ->.
Qed.

Lemma async_log_wash_cycle_effect_witness :
  let g := mkGarmentData "test123" "Test Shirt" "shirt" "white" WORN
             2 7 3 (Some "t0") None (Some "nfc_closet") [] in
  let self := mkState {["test123" := g]} ∅ in
  (∃ self' trace,
     async_log_wash_cycle (mkEnv "t1" false) "test123" "hand" self
       = Returned (true, self', trace)
     ∧ garments self' !! "test123" =
         Some (mkGarmentData "test123" "Test Shirt" "shirt" "white" WASHING
                 0 7 3 (Some "t0") (Some "t1") (Some "nfc_closet")
                 [mkWashCycle "t1" "hand"])
     ∧ (∀ tag', tag' ≠ "test123" → garments self' !! tag' = garments self !! tag')
     ∧ scanners self' = scanners self)
  ∧ async_log_wash_cycle (mkEnv "t1" false) "other" "hand" self
    = Returned (false, self, []).
Proof.
  intros g self. split.
  - apply (proj1 (async_log_wash_cycle_effect
                    (mkEnv "t1" false) "test123" "hand" self) g).
    reflexivity.
  - apply (proj2 (async_log_wash_cycle_effect
                    (mkEnv "t1" false) "other" "hand" self)).
    reflexivity.
Defined.

(** ** Inbound scans *)

(** C9, as stated, has every scan with a resolving scanner and a tag without
    a garment record fire the unknown-tag event; a scan whose tag id is the
    empty string is dropped by the missing-data guard first. *)
Lemma empty_tag_id_not_notified :
  let self :=
    mkState ∅ {["nfc_closet" := <["role" := "closet"]> {["name" := "Closet"]}]} in
  let ev := mkScanEvent (Some "") (Some "nfc_closet") in
  get_scanner_role self "nfc_closet" = Returned (Some CLOSET)
  ∧ garments self !! "" = None
  ∧ handle_tag_scanned (mkEnv "t0" false) ev self
    = Returned (tt, self, [Log DEBUG])
  ∧ signals [Log DEBUG] = [].
Proof. repeat split; reflexivity. Qed.

(** C9 (amended: an empty string counts as missing). A scan whose tag id or
    scanner id is absent or empty, or whose scanner id does not resolve to
    a role, changes nothing and signals nothing.  A scan with both ids
    non-empty, whose scanner id resolves to a role and whose tag id has no
    garment record, fires exactly one unknown-tag event carrying the tag id
    and the role, and creates or changes no garment.  The unknown-tag event
    is fired only by a scan whose scanner id resolves. *)
Theorem handle_tag_scanned_lookup_failures
    (e : env) (ev : scan_event) (self : state) :
  (not_ (ev_tag_id ev) = true
   ∨ not_ (ev_scanner_id ev) = true
   ∨ (∃ sid, ev_scanner_id ev = Some sid
             ∧ get_scanner_role self sid = Returned None) →
   ∃ trace, handle_tag_scanned e ev self = Returned (tt, self, trace)
            ∧ signals trace = [])
  ∧ (∀ tag sid role,
       ev_tag_id ev = Some tag → tag ≠ "" →
       ev_scanner_id ev = Some sid → sid ≠ "" →
       get_scanner_role self sid = Returned (Some role) →
       garments self !! tag = None →
       ∃ trace, handle_tag_scanned e ev self = Returned (tt, self, trace)
                ∧ signals trace =
                    [BusFire EVENT_UNKNOWN_TAG
                       [("tag_id", tag); ("scanner_role", role_value role)]])
  ∧ (∀ self' trace data,
       handle_tag_scanned e ev self = Returned (tt, self', trace) →
       BusFire EVENT_UNKNOWN_TAG data ∈ trace →
       ∃ sid role, ev_scanner_id ev = Some sid
                   ∧ get_scanner_role self sid = Returned (Some role)).
Proof.
  pose proof (handle_tag_scanned_case e ev self) as Hcase.
  split; [| split].
  - intros Hfail.
    assert (Hno : ∀ tag sid role,
               ev_tag_id ev = Some tag → tag ≠ "" →
               ev_scanner_id ev = Some sid → sid ≠ "" →
               get_scanner_role self sid = Returned (Some role) → False).
    { intros tag sid role Htag Htne Hsid Hsne Hrole.
      destruct Hfail as [Hm | [Hm | (sid' & Hsid' & Hnone)]].
      - rewrite Htag in Hm. simpl in Hm. by apply bool_decide_eq_true in Hm.
      - rewrite Hsid in Hm. simpl in Hm. by apply bool_decide_eq_true in Hm.
      - congruence. }
    destruct Hcase; try (exfalso; eauto; fail); by eexists.
  - intros tag sid role Htag Htne Hsid Hsne Hrole Hg.
    destruct Hcase as [Hm | tag' sid' ? ? ? ? Hnone | tag' sid' role' ? ? ? ? Hrole' ?
                       | tag' sid' role' g ? ? ? ? ? Hg' ?
                       | tag' sid' role' g g' ? ? ? ? ? Hg' ?].
    + exfalso. rewrite Htag, Hsid in Hm. simpl in Hm.
      apply orb_true_iff in Hm as [Hm | Hm]; by apply bool_decide_eq_true in Hm.
    + exfalso. congruence.
    + assert (tag' = tag) as -> by congruence.
      assert (sid' = sid) as -> by congruence.
      assert (role' = role) as -> by congruence.
      by eexists.
    + exfalso. congruence.
    + exfalso. congruence.
  - intros self' trace data Hres Hin.
    rewrite Hres in Hcase. inversion Hcase; subst; eauto.
    all: apply list_elem_of_In in Hin; simpl in Hin;
      by destruct Hin as [[=] | []].
Qed.

Lemma handle_tag_scanned_lookup_failures_witness :
  let self :=
    mkState ∅ {["nfc_closet" := <["role" := "closet"]> {["name" := "Closet"]}]} in
  (∃ trace,
     handle_tag_scanned (mkEnv "t0" false)
       (mkScanEvent (Some "04A1B2") (Some "nfc_attic")) self
     = Returned (tt, self, trace)
     ∧ signals trace = [])
  ∧ (∃ trace,
       handle_tag_scanned (mkEnv "t0" false)
         (mkScanEvent (Some "04A1B2") (Some "nfc_closet")) self
       = Returned (tt, self, trace)
       ∧ signals trace =
           [BusFire EVENT_UNKNOWN_TAG
              [("tag_id", "04A1B2"); ("scanner_role", "closet")]]).
Proof.
  intros self. split.
  - apply (proj1 (handle_tag_scanned_lookup_failures (mkEnv "t0" false)
                    (mkScanEvent (Some "04A1B2") (Some "nfc_attic")) self)).
    right. right. exists "nfc_attic". split; reflexivity.
  - apply (proj1 (proj2 (handle_tag_scanned_lookup_failures (mkEnv "t0" false)
                    (mkScanEvent (Some "04A1B2") (Some "nfc_closet")) self))
             "04A1B2" "nfc_closet" CLOSET);
      try reflexivity; discriminate.
Defined.

(** ** The wash-cycle history *)

Lemma transition_wash_cycles_prefix
    (now sid : string) (g : GarmentData) (r : ScannerRole) :
  wash_cycles g `prefix_of` wash_cycles (transition now g r sid).1.
Proof.
  destruct (TRANSITIONS_get (r, garment_state g)) as [t|] eqn:Hget.
  - rewrite (transition_accepted now sid g r t Hget).
    destruct t; simpl; try reflexivity. by eexists.
  - by rewrite (transition_rejected now sid g r Hget).
Qed.

Lemma log_wash_cycle_garment_prefix (now m : string) (g : GarmentData) :
  wash_cycles g `prefix_of` wash_cycles (log_wash_cycle_garment now m g).
Proof. simpl. by eexists. Qed.

(** What never shortens the history.  For a garment recorded under a tag id,
    a transition, the handling of any scan, a force-state call and a manual
    wash log (on any tag) leave a record under that tag id whose
    [wash_cycles] is at least as long as before; so does a registration
    under another tag id. *)
Lemma wash_cycles_length_grows
    (e : env) (self : state) (tag : string) (g : GarmentData) :
  garments self !! tag = Some g →
  (∀ now r sid,
     (length (wash_cycles g) ≤ length (wash_cycles (transition now g r sid).1))%nat)
  ∧ (∀ ev, ∃ self' trace g',
       handle_tag_scanned e ev self = Returned (tt, self', trace)
       ∧ garments self' !! tag = Some g'
       ∧ (length (wash_cycles g) ≤ length (wash_cycles g'))%nat)
  ∧ (∀ tag0 st, ∃ ok self' trace g',
       async_force_state e tag0 st self = Returned (ok, self', trace)
       ∧ garments self' !! tag = Some g'
       ∧ (length (wash_cycles g) ≤ length (wash_cycles g'))%nat)
  ∧ (∀ tag0 m, ∃ ok self' trace g',
       async_log_wash_cycle e tag0 m self = Returned (ok, self', trace)
       ∧ garments self' !! tag = Some g'
       ∧ (length (wash_cycles g) ≤ length (wash_cycles g'))%nat)
  ∧ (∀ tag0 n c col thr, tag0 ≠ tag → ∃ g0 self' trace,
       async_register_garment e tag0 n c col thr self = Returned (g0, self', trace)
       ∧ garments self' !! tag = Some g).
Proof.
  intros Hg. repeat split.
  - intros now r sid. apply prefix_length, transition_wash_cycles_prefix.
  - intros ev.
    destruct (handle_tag_scanned_case e ev self)
      as [ | | | | tag0 sid role g0 g0' _ _ _ _ _ Hg0 Htr];
      try (by exists self; do 2 eexists).
    do 2 eexists.
    destruct (decide (tag0 = tag)) as [->|Hne].
    + exists g0'. split; [reflexivity |]. split.
      * rewrite lookup_with_garment. by rewrite decide_True.
      * assert (g0 = g) as -> by congruence.
        pose proof (transition_wash_cycles_prefix (clock e) sid g role) as Hp.
        rewrite Htr in Hp. by apply prefix_length.
    + exists g. split; [reflexivity |]. split; [| reflexivity].
      rewrite lookup_with_garment. by rewrite decide_False.
  - intros tag0 st. rewrite async_force_state_eq.
    destruct (garments self !! tag0) as [g0|] eqn:Hg0;
      [| by exists false, self; do 2 eexists].
    simpl. do 3 eexists.
    destruct (decide (tag0 = tag)) as [->|Hne].
    + eexists. split; [reflexivity |]. split.
      * rewrite lookup_with_garment. by rewrite decide_True.
      * simpl. assert (g0 = g) as -> by congruence. reflexivity.
    + exists g. split; [reflexivity |]. split; [| reflexivity].
      rewrite lookup_with_garment. by rewrite decide_False.
  - intros tag0 m. rewrite async_log_wash_cycle_eq.
    destruct (garments self !! tag0) as [g0|] eqn:Hg0;
      [| by exists false, self; do 2 eexists].
    simpl. do 3 eexists.
    destruct (decide (tag0 = tag)) as [->|Hne].
    + eexists. split; [reflexivity |]. split.
      * rewrite lookup_with_garment. by rewrite decide_True.
      * assert (g0 = g) as -> by congruence.
        apply prefix_length, log_wash_cycle_garment_prefix.
    + exists g. split; [reflexivity |]. split; [| reflexivity].
      rewrite lookup_with_garment. by rewrite decide_False.
  - intros tag0 n c col thr Hne. rewrite async_register_garment_eq. simpl.
    do 3 eexists. split; [reflexivity |].
    rewrite lookup_with_garment. by rewrite decide_False.
Qed.

(** C4 fails on the register_garment service: called with the tag id of a
    garment that has one wash cycle on record, it replaces the record by a
    fresh one, whose [wash_cycles] is empty.  (The add-garment step of the
    options flow refuses such a tag, see
    [async_step_add_garment_keeps_records].) *)
Theorem handle_register_garment_drops_wash_cycles :
  let g := mkGarmentData "test123" "Test Shirt" "shirt" "white" WASHING
             0 7 3 (Some "t0") (Some "t1") (Some "nfc_washer")
             [mkWashCycle "t1" "machine"] in
  let self := mkState {["test123" := g]} ∅ in
  let call := mkGarmentForm "test123" "Test Shirt" "shirt" (Some "white") None in
  ∃ self' trace,
    handle_register_garment (mkEnv "t2" false) call self
    = Returned (tt, self', trace)
    ∧ garments self !! "test123" = Some g
    ∧ garments self' !! "test123"
      = Some (new_GarmentData "test123" "Test Shirt" "shirt" "white" 3)
    ∧ length (wash_cycles g) = 1%nat
    ∧ length (wash_cycles (new_GarmentData "test123" "Test Shirt" "shirt" "white" 3))
      = 0%nat.
Proof.
  intros g self call. rewrite handle_register_garment_eq. simpl.
  do 2 eexists. split; [reflexivity |]. repeat split; reflexivity.
Qed.

(** ** The scenarios of the test suite *)

Example transition_closet_clean :
  transition "t0" (new_GarmentData "test123" "Test Shirt" "shirt" "white" 3)
    CLOSET "nfc_closet"
  = (mkGarmentData "test123" "Test Shirt" "shirt" "white" WORN 1 1 3
       (Some "t0") None (Some "nfc_closet") [],
     Some (mkGarmentData "test123" "Test Shirt" "shirt" "white" WORN 1 1 3
       (Some "t0") None (Some "nfc_closet") [])).
Proof. reflexivity. Qed.

Example from_dict_defaults :
  from_dict "tag1" minimal_dict
  = Returned (mkGarmentData "tag1" "Shirt" "shirt" "" CLEAN 0 0 3 None None None []).
Proof. reflexivity. Qed.

Example three_wears :
  let g := scans "t"
             [(CLOSET, "c"); (CLOSET, "c"); (CLOSET, "c"); (CLOSET, "c"); (CLOSET, "c")]
             (new_GarmentData "test123" "Test Shirt" "shirt" "white" 3) in
  garment_state g = WORN
  ∧ wear_count_since_wash g = 3%Z ∧ total_wear_count g = 3%Z.
Proof. repeat split; reflexivity. Qed.

Example full_wash_cycle_with_dryer :
  let g := scans "t"
             [(CLOSET, "c"); (LAUNDRY_BIN, "b"); (WASHER, "w"); (DRYER, "d");
              (CLOSET, "c")]
             (new_GarmentData "test123" "Test Shirt" "shirt" "white" 3) in
  garment_state g = CLEAN ∧ wash_cycles g = [mkWashCycle "t" "machine"].
Proof. split; reflexivity. Qed.

(** * Further properties of the code *)

(** ** const.py: the enumerations *)

Lemma role_value_parses (r : ScannerRole) :
  ScannerRole_of_value (role_value r) = Returned r.
Proof. by destruct r. Qed.

Lemma ScannerRole_of_value_Returned (v : string) (r : ScannerRole) :
  ScannerRole_of_value v = Returned r ↔ role_value r = v.
Proof.
  split.
  - destruct (ScannerRole_of_value_cases v) as [(r' & -> & Hv) | ->];
      [by intros [= <-] | discriminate].
  - intros <-. apply role_value_parses.
Qed.

Lemma ScannerRole_of_value_Raised (v : string) :
  (∀ r, role_value r ≠ v) ↔ ScannerRole_of_value v = Raised (ValueError v).
Proof.
  split.
  - intros Hno.
    destruct (ScannerRole_of_value_cases v) as [(r' & _ & Hv) | ->];
      [by apply Hno in Hv | reflexivity].
  - intros Hraise r <-. rewrite role_value_parses in Hraise. discriminate.
Qed.

(** X1. Building a [ScannerRole] or a [GarmentState] from a string returns
    a member exactly when the string is that member's value, and raises
    [ValueError] for every other string; so a member is determined by its
    value. *)
Theorem enum_of_value_iff :
  (∀ v r, ScannerRole_of_value v = Returned r ↔ role_value r = v)
  ∧ (∀ v, (∀ r, role_value r ≠ v) ↔ ScannerRole_of_value v = Raised (ValueError v))
  ∧ (∀ v s, GarmentState_of_value v = Returned s ↔ state_value s = v)
  ∧ (∀ v, (∀ s, state_value s ≠ v) ↔ GarmentState_of_value v = Raised (ValueError v)).
Proof.
  refine (conj _ (conj _ (conj _ _))).
  - apply ScannerRole_of_value_Returned.
  - apply ScannerRole_of_value_Raised.
  - intros v s. split.
    + destruct (GarmentState_of_value_cases v) as [(s' & -> & Hv) | [-> _]];
        [by intros [= <-] | discriminate].
    + intros <-. apply GarmentState_of_value_state_value.
  - intros v. split.
    + intros Hno.
      destruct (GarmentState_of_value_cases v) as [(s' & _ & Hv) | [-> _]];
        [by apply Hno in Hv | reflexivity].
    + intros Hraise s <-.
      rewrite GarmentState_of_value_state_value in Hraise. discriminate.
Qed.

(** ** state_machine.py: what scans do to a garment *)

(** X2. An accepted transition always changes the state: the table has no
    entry from a state to itself. *)
Theorem accepted_transition_changes_state
    (now sid : string) (g g' : GarmentData) (r : ScannerRole) :
  transition now g r sid = (g', Some g') →
  garment_state g' ≠ garment_state g.
Proof.
  intros Htr.
  destruct (TRANSITIONS_get (r, garment_state g)) as [t|] eqn:Hget.
  - rewrite (transition_accepted now sid g r t Hget) in Htr.
    simpl in Htr. injection Htr as <-.
    apply TRANSITIONS_get_Some in Hget.
    assert (Ht : t ≠ garment_state g).
    { revert Hget. generalize (garment_state g). intros s Hin.
      vm_compute in Hin.
      repeat (destruct Hin as [[= <- <- <-] | Hin]; [discriminate |]).
      destruct Hin. }
    by destruct t.
  - rewrite (transition_rejected now sid g r Hget) in Htr. discriminate.
Qed.

Lemma accepted_transition_changes_state_witness :
  let g := new_GarmentData "test123" "Test Shirt" "shirt" "white" 3 in
  garment_state (transition "t0" g CLOSET "nfc_closet").1 ≠ garment_state g.
Proof.
  intros g.
  apply (accepted_transition_changes_state "t0" "nfc_closet" g _ CLOSET).
  reflexivity.
Defined.

(** X3. A scan counts a wear only when it is a closet scan of a clean
    garment, and records a wash only when it is a washer scan of a garment
    in the laundry bin: no other scan, accepted or not, changes
    [total_wear_count], [last_worn], [wash_cycles] or [last_washed], and
    [wear_count_since_wash] changes in these two cases only. *)
Theorem transition_counts_only_wear_and_wash
    (now sid : string) (g : GarmentData) (r : ScannerRole) :
  let g' := (transition now g r sid).1 in
  ((r, garment_state g) ≠ (CLOSET, CLEAN) →
     total_wear_count g' = total_wear_count g ∧ last_worn g' = last_worn g)
  ∧ ((r, garment_state g) ≠ (WASHER, IN_LAUNDRY_BIN) →
     wash_cycles g' = wash_cycles g ∧ last_washed g' = last_washed g)
  ∧ ((r, garment_state g) ≠ (CLOSET, CLEAN) →
     (r, garment_state g) ≠ (WASHER, IN_LAUNDRY_BIN) →
     wear_count_since_wash g' = wear_count_since_wash g).
Proof.
  destruct g as [tag n c col st w tw thr lw lwa ls wcs].
  destruct r, st; simpl; repeat split; intros; congruence.
Qed.

Lemma transition_counts_only_wear_and_wash_witness :
  let g := mkGarmentData "test123" "Test Shirt" "shirt" "white" WORN
             2 7 3 (Some "t0") None (Some "nfc_closet") [] in
  total_wear_count (transition "t1" g CLOSET "nfc_closet").1 = 7%Z
  ∧ last_worn (transition "t1" g CLOSET "nfc_closet").1 = Some "t0".
Proof.
  intros g.
  apply (proj1 (transition_counts_only_wear_and_wash "t1" "nfc_closet" g CLOSET)).
  discriminate.
Defined.

Lemma transition_keeps_invariants
    (now sid : string) (g : GarmentData) (r : ScannerRole) :
  counters_ok g →
  let g' := (transition now g r sid).1 in
  counters_ok g'
  ∧ (total_wear_count g ≤ total_wear_count g')%Z
  ∧ tag_id g' = tag_id g ∧ name g' = name g ∧ category g' = category g
  ∧ color g' = color g
  ∧ needs_washing_threshold g' = needs_washing_threshold g.
Proof.
  unfold counters_ok. intros Hok.
  destruct (TRANSITIONS_get (r, garment_state g)) as [t|] eqn:Hget.
  - rewrite (transition_accepted now sid g r t Hget).
    destruct t; simpl; repeat split; try reflexivity; lia.
  - rewrite (transition_rejected now sid g r Hget). simpl.
    repeat split; try reflexivity; lia.
Qed.

(** X4. Through any sequence of scans, accepted or rejected, a garment
    whose counters are in order (0 <= wear_count_since_wash <=
    total_wear_count, as for a new garment) keeps them in order; its
    [total_wear_count] never decreases, its wash-cycle history only gets
    longer at the end, and its tag id, name, category, colour and threshold
    stay what they were. *)
Theorem scan_sequence_invariants
    (steps : list (string * ScannerRole * string)) (g : GarmentData) :
  counters_ok g →
  let g' := scan_sequence steps g in
  counters_ok g'
  ∧ (total_wear_count g ≤ total_wear_count g')%Z
  ∧ wash_cycles g `prefix_of` wash_cycles g'
  ∧ tag_id g' = tag_id g ∧ name g' = name g ∧ category g' = category g
  ∧ color g' = color g
  ∧ needs_washing_threshold g' = needs_washing_threshold g.
Proof.
  revert g. induction steps as [|[[now r] sid] steps IH]; intros g Hok.
  - simpl. repeat split; try reflexivity; try lia; apply Hok.
  - pose proof (transition_keeps_invariants now sid g r Hok)
      as (Hok1 & Htot & Htag & Hname & Hcat & Hcol & Hthr).
    pose proof (transition_wash_cycles_prefix now sid g r) as Hpre.
    specialize (IH _ Hok1) as (Hok' & Htot' & Hpre' & Htag' & Hname' & Hcat'
                               & Hcol' & Hthr').
    simpl in *. unfold scan_sequence in *. simpl.
    split; [exact Hok' |]. split; [lia |].
    split; [by etrans |].
    repeat split; congruence.
Qed.

Lemma scan_sequence_invariants_witness :
  let g := new_GarmentData "test123" "Test Shirt" "shirt" "white" 3 in
  let g' := scan_sequence
              [("t1", CLOSET, "c"); ("t2", DRYER, "d"); ("t3", LAUNDRY_BIN, "b");
               ("t4", WASHER, "w"); ("t5", WASHER, "w")] g in
  counters_ok g'
  ∧ (total_wear_count g ≤ total_wear_count g')%Z
  ∧ wash_cycles g `prefix_of` wash_cycles g'
  ∧ tag_id g' = tag_id g ∧ name g' = name g ∧ category g' = category g
  ∧ color g' = color g
  ∧ needs_washing_threshold g' = needs_washing_threshold g.
Proof.
  intros g.
  apply (scan_sequence_invariants _ g).
  unfold counters_ok. simpl. lia.
Defined.

(** X5. Closet scans alone count wears: on a clean garment, k closet scans
    in a row (wear, put back, wear, ...) add the number of wears among
    them, (k+1)/2 rounded down, to both counters, and leave the garment
    clean when k is even and worn when k is odd. *)
Theorem closet_scans_count_wears
    (steps : list (string * ScannerRole * string)) (g : GarmentData) :
  Forall (λ step, step.1.2 = CLOSET) steps →
  garment_state g = CLEAN →
  let g' := scan_sequence steps g in
  let wears := Z.of_nat (Nat.div2 (S (length steps))) in
  wear_count_since_wash g' = (wear_count_since_wash g + wears)%Z
  ∧ total_wear_count g' = (total_wear_count g + wears)%Z
  ∧ garment_state g' = (if Nat.even (length steps) then CLEAN else WORN).
Proof.
  intros Hall.
  cut ((garment_state g = CLEAN →
        wear_count_since_wash (scan_sequence steps g)
        = (wear_count_since_wash g + Z.of_nat (Nat.div2 (S (length steps))))%Z
        ∧ total_wear_count (scan_sequence steps g)
          = (total_wear_count g + Z.of_nat (Nat.div2 (S (length steps))))%Z
        ∧ garment_state (scan_sequence steps g)
          = (if Nat.even (length steps) then CLEAN else WORN))
       ∧ (garment_state g = WORN →
          wear_count_since_wash (scan_sequence steps g)
          = (wear_count_since_wash g + Z.of_nat (Nat.div2 (length steps)))%Z
          ∧ total_wear_count (scan_sequence steps g)
            = (total_wear_count g + Z.of_nat (Nat.div2 (length steps)))%Z
          ∧ garment_state (scan_sequence steps g)
            = (if Nat.even (length steps) then WORN else CLEAN))).
  { intros [Hclean _] Hst. simpl. by apply Hclean. }
  revert g. induction Hall as [|[[now r] sid] steps Hr Hall IH]; intros g.
  - simpl. split; intros ->; repeat split; lia.
  - simpl in Hr. subst r.
    change (scan_sequence ((now, CLOSET, sid) :: steps) g)
      with (scan_sequence steps (transition now g CLOSET sid).1).
    split; intros Hst.
    + assert (Hget : TRANSITIONS_get (CLOSET, garment_state g) = Some WORN)
        by (by rewrite Hst).
      rewrite (transition_accepted now sid g CLOSET WORN Hget).
      cbn [fst].
      destruct (IH (mkGarmentData (tag_id g) (name g) (category g) (color g)
                      WORN (wear_count_since_wash g + 1) (total_wear_count g + 1)
                      (needs_washing_threshold g) (Some now) (last_washed g)
                      (Some sid) (wash_cycles g)))
        as [_ Hworn].
      specialize (Hworn eq_refl) as (Hw & Ht & Hs).
      rewrite Hw, Ht, Hs. cbn [wear_count_since_wash total_wear_count length].
      change (Nat.div2 (S (S (length steps)))) with (S (Nat.div2 (length steps))).
      rewrite Nat.even_succ, <- Nat.negb_even.
      repeat split; try lia. by destruct (Nat.even (length steps)).
    + assert (Hget : TRANSITIONS_get (CLOSET, garment_state g) = Some CLEAN)
        by (by rewrite Hst).
      rewrite (transition_accepted now sid g CLOSET CLEAN Hget).
      cbn [fst].
      destruct (IH (mkGarmentData (tag_id g) (name g) (category g) (color g)
                      CLEAN (wear_count_since_wash g) (total_wear_count g)
                      (needs_washing_threshold g) (last_worn g) (last_washed g)
                      (Some sid) (wash_cycles g)))
        as [Hclean _].
      specialize (Hclean eq_refl) as (Hw & Ht & Hs).
      rewrite Hw, Ht, Hs. cbn [wear_count_since_wash total_wear_count length].
      rewrite Nat.even_succ, <- Nat.negb_even.
      repeat split; try lia. by destruct (Nat.even (length steps)).
Qed.

Lemma closet_scans_count_wears_witness :
  let g := new_GarmentData "test123" "Test Shirt" "shirt" "white" 3 in
  let steps :=
    [("t1", CLOSET, "c"); ("t2", CLOSET, "c"); ("t3", CLOSET, "c");
     ("t4", CLOSET, "c"); ("t5", CLOSET, "c")] in
  let g' := scan_sequence steps g in
  let wears := Z.of_nat (Nat.div2 (S (length steps))) in
  wear_count_since_wash g' = (wear_count_since_wash g + wears)%Z
  ∧ total_wear_count g' = (total_wear_count g + wears)%Z
  ∧ garment_state g' = (if Nat.even (length steps) then CLEAN else WORN).
Proof.
  intros g steps.
  apply (closet_scans_count_wears steps g); [| reflexivity].
  repeat constructor.
Defined.

(** X6. A full laundry round on a clean garment - worn from the closet,
    into the bin, into the washer, then through the dryer, the ironing
    station or both, and back into the closet - ends clean, with
    [wear_count_since_wash] 0, [total_wear_count] one more, [last_worn] the
    time of the first scan, [last_washed] the time of the washer scan,
    exactly one wash cycle ("machine", at the washer scan) added, and
    [last_scanned_at] the closet scanner of the last scan. *)
Theorem full_laundry_round
    (g : GarmentData) (t1 t2 t3 t4 t5 t6 s1 s2 s3 s4 s5 s6 : string) :
  garment_state g = CLEAN →
  let done :=
    mkGarmentData (tag_id g) (name g) (category g) (color g) CLEAN
      0 (total_wear_count g + 1) (needs_washing_threshold g)
      (Some t1) (Some t3) (Some s6)
      (wash_cycles g ++ [mkWashCycle t3 "machine"]) in
  scan_sequence
    [(t1, CLOSET, s1); (t2, LAUNDRY_BIN, s2); (t3, WASHER, s3);
     (t4, DRYER, s4); (t6, CLOSET, s6)] g = done
  ∧ scan_sequence
      [(t1, CLOSET, s1); (t2, LAUNDRY_BIN, s2); (t3, WASHER, s3);
       (t5, IRONING, s5); (t6, CLOSET, s6)] g = done
  ∧ scan_sequence
      [(t1, CLOSET, s1); (t2, LAUNDRY_BIN, s2); (t3, WASHER, s3);
       (t4, DRYER, s4); (t5, IRONING, s5); (t6, CLOSET, s6)] g = done.
Proof.
  destruct g as [tag n c col st w tw thr lw lwa ls wcs].
  cbn [garment_state]. intros ->. cbv zeta.
  repeat split; vm_compute; reflexivity.
Qed.

Lemma full_laundry_round_witness :
  scan_sequence
    [("t1", CLOSET, "c"); ("t2", LAUNDRY_BIN, "b"); ("t3", WASHER, "w");
     ("t4", DRYER, "d"); ("t6", CLOSET, "c")]
    (new_GarmentData "test123" "Test Shirt" "shirt" "white" 3)
  = mkGarmentData "test123" "Test Shirt" "shirt" "white" CLEAN 0 (0 + 1) 3
      (Some "t1") (Some "t3") (Some "c") ([] ++ [mkWashCycle "t3" "machine"]).
Proof.
  apply (proj1 (full_laundry_round
                  (new_GarmentData "test123" "Test Shirt" "shirt" "white" 3)
                  "t1" "t2" "t3" "t4" "t5" "t6" "c" "b" "w" "d" "i" "c" eq_refl)).
Defined.

(** ** coordinator.py: the remaining methods, evaluated *)

Section coordinator_more_equations.

Context (e : env).

Ltac unfold_M :=
  unfold mbind, mret, M_bind, M_ret, bind, ret, get_self, emit, lift,
    set_garment, del_garment, set_scanner, set_scanners, set_garments,
    _async_save, try_except, store_async_save, async_set_updated_data,
    commit_trace, save_trace, with_garment in *;
  simpl in *.

Lemma async_remove_garment_eq (tag : string) (self : state) :
  async_remove_garment e tag self =
    match garments self !! tag with
    | None => Returned (false, self, [])
    | Some _ =>
        let self' := mkState (delete tag (garments self)) (scanners self) in
        Returned (true, self', commit_trace e self')
    end.
Proof.
  unfold async_remove_garment. unfold_M.
  destruct (garments self !! tag); [| reflexivity].
  by destruct (store_save_raises e).
Qed.

Lemma async_register_scanner_eq (scanner_id role name : string) (self : state) :
  async_register_scanner e scanner_id role name self =
    let self' :=
      mkState (garments self)
        (<[scanner_id := <["role" := role]> (<["name" := name]> ∅)]>
           (scanners self)) in
    Returned (tt, self', save_trace e self').
Proof.
  unfold async_register_scanner. unfold_M.
  by destruct (store_save_raises e).
Qed.

Lemma async_select_option_eq (tag option : string) (self : state) :
  async_select_option e tag option self =
    match GarmentState_of_value option with
    | Raised ex => Raised ex
    | Returned st =>
        match garments self !! tag with
        | None => Returned (tt, self, [])
        | Some g =>
            let self' := with_garment tag (set_garment_state st g) self in
            Returned (tt, self', commit_trace e self')
        end
    end.
Proof.
  unfold async_select_option.
  unfold mbind at 1. unfold M_bind, bind, lift.
  destruct (GarmentState_of_value option) as [st|ex]; [| reflexivity].
  unfold mbind, M_bind, bind. rewrite async_force_state_eq.
  destruct (garments self !! tag); simpl; [| reflexivity].
  unfold ret. by rewrite app_nil_r.
Qed.

Lemma async_press_eq
    (tag : string) (description : WardrobeButtonEntityDescription) (self : state) :
  async_press e tag description self =
    match garments self !! tag with
    | None => Returned (tt, self, [])
    | Some g =>
        let self' :=
          with_garment tag (set_garment_state (target_state description) g) self in
        Returned (tt, self', commit_trace e self')
    end.
Proof.
  unfold async_press. unfold mbind, M_bind, bind.
  rewrite async_force_state_eq.
  destruct (garments self !! tag); simpl; [| reflexivity].
  unfold ret. by rewrite app_nil_r.
Qed.

Lemma async_load_eq (stored : option document) (self : state) :
  async_load stored self =
    let stored := default (mkDocument (Some ∅) (Some ∅)) stored in
    match comprehension load_garment
            (map_to_list (default ∅ (doc_garments stored))) with
    | Raised ex => Raised ex
    | Returned loaded =>
        let self' :=
          mkState (list_to_map loaded) (default ∅ (doc_scanners stored)) in
        Returned (tt, self', [SetUpdatedData (garments self')])
    end.
Proof.
  unfold async_load. unfold_M.
  by destruct (comprehension load_garment _).
Qed.

End coordinator_more_equations.

Lemma transition_tag_id (now sid : string) (g : GarmentData) (r : ScannerRole) :
  tag_id (transition now g r sid).1 = tag_id g.
Proof.
  destruct (TRANSITIONS_get (r, garment_state g)) as [t|] eqn:Hget.
  - rewrite (transition_accepted now sid g r t Hget). by destruct t.
  - by rewrite (transition_rejected now sid g r Hget).
Qed.

(** A property of each garment under its key that scans, force-state and
    wash logs keep, and that a new record has, holds of the whole
    directory after every step of the coordinator. *)
Lemma coordinator_step_keeps
    (P : string → GarmentData → Prop) (self self' : state) :
  (∀ tag g now r sid, P tag g → P tag (transition now g r sid).1) →
  (∀ tag g st, P tag g → P tag (set_garment_state st g)) →
  (∀ tag g now m, P tag g → P tag (log_wash_cycle_garment now m g)) →
  (∀ tag n c col thr, P tag (new_GarmentData tag n c col thr)) →
  coordinator_step self self' →
  (∀ tag g, garments self !! tag = Some g → P tag g) →
  ∀ tag g, garments self' !! tag = Some g → P tag g.
Proof.
  intros Htr Hforce Hlog Hnew Hstep Hall tag g.
  assert (Hwith : ∀ tag0 g0, P tag0 g0 →
            garments (with_garment tag0 g0 self) !! tag = Some g → P tag g).
  { intros tag0 g0 HP. rewrite lookup_with_garment. case_decide.
    - intros [= <-]. by subst.
    - apply Hall. }
  destruct Hstep as [e ev trace Hop | e tag0 st ok trace Hop
                    | e tag0 m ok trace Hop
                    | e tag0 n c col thr g0 trace Hop
                    | e tag0 ok trace Hop
                    | e sid role n trace Hop].
  - pose proof (handle_tag_scanned_case e ev self) as Hcase.
    rewrite Hop in Hcase. inversion Hcase; subst; try apply Hall.
    match goal with
    | Htrans : transition _ ?g0 ?role0 ?sid0 = (?g1, Some ?g1),
      Hlook : garments self !! ?tag0 = Some ?g0 |- _ =>
        apply Hwith;
        replace g1 with (transition (clock e) g0 role0 sid0).1
          by (by rewrite Htrans);
        apply Htr, (Hall _ _ Hlook)
    end.
  - rewrite async_force_state_eq in Hop.
    destruct (garments self !! tag0) as [g0|] eqn:Hg0; simpl in Hop;
      injection Hop as <- <- <-; [| apply Hall].
    apply Hwith, Hforce, (Hall _ _ Hg0).
  - rewrite async_log_wash_cycle_eq in Hop.
    destruct (garments self !! tag0) as [g0|] eqn:Hg0; simpl in Hop;
      injection Hop as <- <- <-; [| apply Hall].
    apply Hwith, Hlog, (Hall _ _ Hg0).
  - rewrite async_register_garment_eq in Hop. simpl in Hop.
    injection Hop as <- <- <-. apply Hwith, Hnew.
  - rewrite async_remove_garment_eq in Hop.
    destruct (garments self !! tag0) as [g0|] eqn:Hg0; simpl in Hop;
      injection Hop as <- <- <-; [| apply Hall].
    simpl. intros Hdel. apply lookup_delete_Some in Hdel as [_ Hdel].
    by apply Hall.
  - rewrite async_register_scanner_eq in Hop. simpl in Hop.
    injection Hop as <- <-. apply Hall.
Qed.

(** [handle_tag_scanned], evaluated. *)
Lemma handle_tag_scanned_eq (e : env) (ev : scan_event) (self : state) :
  handle_tag_scanned e ev self =
    match ev_tag_id ev, ev_scanner_id ev with
    | Some tag, Some sid =>
        if not_ (Some tag) || not_ (Some sid) then Returned (tt, self, [Log DEBUG])
        else
          match get_scanner_role self sid with
          | Raised ex => Raised ex
          | Returned None => Returned (tt, self, [Log DEBUG])
          | Returned (Some role) =>
              match garments self !! tag with
              | None =>
                  Returned (tt, self,
                    [Log WARNING;
                     BusFire EVENT_UNKNOWN_TAG
                       [("tag_id", tag); ("scanner_role", role_value role)]])
              | Some g =>
                  let self' :=
                    with_garment tag (transition (clock e) g role sid).1 self in
                  match (transition (clock e) g role sid).2 with
                  | None => Returned (tt, self', [Log DEBUG; Log DEBUG])
                  | Some _ => Returned (tt, self', Log DEBUG :: commit_trace e self')
                  end
              end
          end
    | _, _ => Returned (tt, self, [Log DEBUG])
    end.
Proof.
  unfold handle_tag_scanned.
  destruct (ev_tag_id ev) as [tag|]; [| reflexivity].
  destruct (ev_scanner_id ev) as [sid|]; [| reflexivity].
  destruct (not_ (Some tag) || not_ (Some sid)); [reflexivity |].
  unfold mbind, M_bind, bind, get_self, lift. simpl.
  destruct (get_scanner_role self sid) as [[role|]|ex]; try reflexivity.
  destruct (garments self !! tag) as [g|]; [| reflexivity].
  unfold emit, set_garment. simpl.
  destruct (transition (clock e) g role sid) as [g' [res|]]; simpl;
    [| reflexivity].
  rewrite _async_save_eq. unfold async_set_updated_data, mbind, M_bind, bind,
    get_self, emit, commit_trace, with_garment.
  simpl. reflexivity.
Qed.

(** ** coordinator.py: scans of known garments *)

(** X7. A scan of a registered garment at a registered scanner (both ids
    non-empty): when the table rejects it, the coordinator is left as it
    was and nothing but diagnostics is emitted - no save, no update
    notification; when the table accepts it, the garment under that tag
    becomes the transition's result, every other garment and the scanners
    stay, and the signals are one save of the new state (unless the store
    fails) followed by one update notification. *)
Theorem handle_tag_scanned_known_garment
    (e : env) (self : state) (tag sid : string) (role : ScannerRole)
    (g : GarmentData) :
  tag ≠ "" → sid ≠ "" →
  get_scanner_role self sid = Returned (Some role) →
  garments self !! tag = Some g →
  let ev := mkScanEvent (Some tag) (Some sid) in
  (TRANSITIONS_get (role, garment_state g) = None →
     ∃ trace, handle_tag_scanned e ev self = Returned (tt, self, trace)
              ∧ signals trace = [])
  ∧ (is_Some (TRANSITIONS_get (role, garment_state g)) →
     ∃ self' trace,
       handle_tag_scanned e ev self = Returned (tt, self', trace)
       ∧ garments self' = <[tag := (transition (clock e) g role sid).1]> (garments self)
       ∧ scanners self' = scanners self
       ∧ signals trace =
           (if store_save_raises e then []
            else [StoreSave (scanners self') (to_dict <$> garments self')])
           ++ [SetUpdatedData (garments self')]).
Proof.
  intros Htag Hsid Hrole Hg ev.
  rewrite handle_tag_scanned_eq. simpl.
  rewrite !bool_decide_false by done. simpl. rewrite Hrole, Hg.
  split.
  - intros Hget. rewrite (transition_rejected _ _ _ _ Hget). simpl.
    rewrite (with_garment_id tag g self Hg). by eexists.
  - intros [t Hget]. rewrite (transition_accepted _ _ _ _ _ Hget). simpl.
    do 2 eexists. split; [reflexivity |]. split; [reflexivity |].
    split; [reflexivity |].
    unfold commit_trace, save_trace. by destruct (store_save_raises e).
Qed.

Lemma handle_tag_scanned_known_garment_witness :
  let g := new_GarmentData "04A1B2" "Test Shirt" "shirt" "white" 3 in
  let self :=
    mkState {["04A1B2" := g]}
      {["nfc_washer" := <["role" := "washer"]> {["name" := "Washer"]}]} in
  ∃ trace,
    handle_tag_scanned (mkEnv "t0" false)
      (mkScanEvent (Some "04A1B2") (Some "nfc_washer")) self
    = Returned (tt, self, trace)
    ∧ signals trace = [].
Proof.
  intros g self.
  apply (proj1 (handle_tag_scanned_known_garment (mkEnv "t0" false) self
                  "04A1B2" "nfc_washer" WASHER g
                  ltac:(discriminate) ltac:(discriminate) eq_refl eq_refl)).
  reflexivity.
Defined.

(** X8. A failing store changes nothing but the trace: with the same clock,
    every method returns the same value and leaves the same coordinator
    whether the store's save raises or not (the in-memory change is kept,
    the failure is only logged). *)
Theorem store_failure_keeps_results (now : string) (self : state) :
  let ok := mkEnv now false in
  let failing := mkEnv now true in
  (∀ ev, ∃ self' trace trace',
     handle_tag_scanned ok ev self = Returned (tt, self', trace)
     ∧ handle_tag_scanned failing ev self = Returned (tt, self', trace'))
  ∧ (∀ tag st, ∃ r self' trace trace',
       async_force_state ok tag st self = Returned (r, self', trace)
       ∧ async_force_state failing tag st self = Returned (r, self', trace'))
  ∧ (∀ tag m, ∃ r self' trace trace',
       async_log_wash_cycle ok tag m self = Returned (r, self', trace)
       ∧ async_log_wash_cycle failing tag m self = Returned (r, self', trace'))
  ∧ (∀ tag n c col thr, ∃ r self' trace trace',
       async_register_garment ok tag n c col thr self = Returned (r, self', trace)
       ∧ async_register_garment failing tag n c col thr self
         = Returned (r, self', trace'))
  ∧ (∀ tag, ∃ r self' trace trace',
       async_remove_garment ok tag self = Returned (r, self', trace)
       ∧ async_remove_garment failing tag self = Returned (r, self', trace'))
  ∧ (∀ sid role n, ∃ self' trace trace',
       async_register_scanner ok sid role n self = Returned (tt, self', trace)
       ∧ async_register_scanner failing sid role n self
         = Returned (tt, self', trace')).
Proof.
  intros ok failing.
  refine (conj _ (conj _ (conj _ (conj _ (conj _ _))))).
  - intros ev. rewrite !handle_tag_scanned_eq.
    destruct (ev_tag_id ev) as [tag|]; [| by do 3 eexists].
    destruct (ev_scanner_id ev) as [sid|]; [| by do 3 eexists].
    destruct (not_ (Some tag) || not_ (Some sid)); [by do 3 eexists |].
    destruct (get_scanner_role_returns self sid) as [[role|] ->];
      [| by do 3 eexists].
    destruct (garments self !! tag) as [g|]; [| by do 3 eexists].
    simpl. destruct (transition now g role sid).2; by do 3 eexists.
  - intros tag st. rewrite !async_force_state_eq.
    destruct (garments self !! tag); by do 4 eexists.
  - intros tag m. rewrite !async_log_wash_cycle_eq.
    destruct (garments self !! tag); by do 4 eexists.
  - intros tag n c col thr. rewrite !async_register_garment_eq.
    by do 4 eexists.
  - intros tag. rewrite !async_remove_garment_eq.
    destruct (garments self !! tag); by do 4 eexists.
  - intros sid role n. rewrite !async_register_scanner_eq. by do 3 eexists.
Qed.

(** ** coordinator.py: invariants of the garment directory *)

(** X9. Every garment is stored under its own tag id: loading from the store
    establishes this, whatever the stored document holds, and every later
    scan, force-state, wash log, registration, removal and scanner
    registration keeps it. *)
Theorem keys_stay_consistent :
  (∀ stored self0 self trace,
     async_load stored self0 = Returned (tt, self, trace) → keys_consistent self)
  ∧ (∀ self self',
       rtc coordinator_step self self' → keys_consistent self →
       keys_consistent self').
Proof.
  split.
  - intros stored self0 self trace. rewrite async_load_eq. simpl.
    destruct (comprehension load_garment _) as [loaded|ex] eqn:Hload;
      [| discriminate].
    intros [= <- _]. intros tag g Hlook. simpl in Hlook.
    apply elem_of_list_to_map_2 in Hlook.
    revert Hload Hlook. generalize (map_to_list
      (default ∅ (doc_garments (default (mkDocument (Some ∅) (Some ∅)) stored)))).
    intros items. revert loaded.
    induction items as [|[k d] items IH]; intros loaded; simpl.
    + intros [= <-]. by rewrite elem_of_nil.
    + unfold load_garment at 1. simpl.
      destruct (from_dict k d) as [g0|ex] eqn:Hdec; simpl; [| discriminate].
      destruct (comprehension load_garment items) as [rest|ex]; simpl;
        [| discriminate].
      intros [= <-]. rewrite elem_of_cons. intros [[= -> ->] | Hin].
      * unfold from_dict in Hdec.
        destruct (getitem "name" (d_name d)); simpl in Hdec; [| discriminate].
        destruct (getitem "category" (d_category d)); simpl in Hdec;
          [| discriminate].
        destruct (GarmentState_of_value _); simpl in Hdec; [| discriminate].
        destruct (comprehension WashCycle_from_dict _); simpl in Hdec;
          [| discriminate].
        by injection Hdec as <-.
      * by apply (IH rest).
  - intros self self' Hsteps. induction Hsteps as [|self self1 self' Hstep _ IH];
      [done |].
    intros Hkeys. apply IH. unfold keys_consistent.
    apply (coordinator_step_keeps (λ tag g, tag_id g = tag) self self1);
      [ | | | | exact Hstep | exact Hkeys].
    + intros tag g now r sid <-. apply transition_tag_id.
    + intros tag g st Htag. exact Htag.
    + intros tag g now m Htag. exact Htag.
    + intros tag n c col thr. reflexivity.
Qed.

Lemma keys_stay_consistent_witness :
  keys_consistent
    (mkState {["test123" := set_garment_state WORN
                 (new_GarmentData "test123" "Test Shirt" "shirt" "white" 3)]} ∅).
Proof.
  apply (proj2 keys_stay_consistent (mkState ∅ ∅)).
  - eapply rtc_l.
    + apply (step_register_garment _ _ (mkEnv "t0" false)
               "test123" "Test Shirt" "shirt" "white" 3%Z
               (new_GarmentData "test123" "Test Shirt" "shirt" "white" 3)
               [StoreSave ∅ {["test123" := to_dict (new_GarmentData "test123"
                                  "Test Shirt" "shirt" "white" 3)]};
                SetUpdatedData {["test123" := new_GarmentData "test123"
                                  "Test Shirt" "shirt" "white" 3]}]).
      reflexivity.
    + eapply rtc_once.
      apply (step_force_state _ _ (mkEnv "t1" true) "test123" WORN true
               [Log ERROR;
                SetUpdatedData {["test123" := set_garment_state WORN
                  (new_GarmentData "test123" "Test Shirt" "shirt" "white" 3)]}]).
      reflexivity.
  - intros tag g Hg. simpl in Hg. by rewrite lookup_empty in Hg.
Defined.

(** X10. A garment's counters stay in order (0 <= wear_count_since_wash <=
    total_wear_count) through every sequence of scans, force-state calls,
    wash logs, registrations (also over an existing record) and removals:
    if they are in order for every garment of the directory, in particular
    if the directory is empty, they are in order ever after. *)
Theorem counters_stay_in_order (self self' : state) :
  rtc coordinator_step self self' →
  (∀ tag g, garments self !! tag = Some g → counters_ok g) →
  ∀ tag g, garments self' !! tag = Some g → counters_ok g.
Proof.
  intros Hsteps. induction Hsteps as [|self self1 self' Hstep _ IH]; [done |].
  intros Hall. apply IH.
  apply (coordinator_step_keeps (λ _ g, counters_ok g) self self1);
    [ | | | | exact Hstep | exact Hall].
  - intros ? g now r sid Hok.
    by destruct (transition_keeps_invariants now sid g r Hok) as [? _].
  - intros ? g st Hok. exact Hok.
  - intros ? g now m. unfold counters_ok. simpl. lia.
  - intros ? n c col thr. unfold counters_ok. simpl. lia.
Qed.

Lemma counters_stay_in_order_witness :
  counters_ok (log_wash_cycle_garment "t1" "hand"
                 (new_GarmentData "test123" "Test Shirt" "shirt" "white" 3)).
Proof.
  apply (counters_stay_in_order (mkState ∅ ∅)
           (mkState {["test123" := log_wash_cycle_garment "t1" "hand"
                        (new_GarmentData "test123" "Test Shirt" "shirt" "white" 3)]}
              ∅)) with (tag := "test123").
  - eapply rtc_l.
    + apply (step_register_garment _ _ (mkEnv "t0" true)
               "test123" "Test Shirt" "shirt" "white" 3%Z
               (new_GarmentData "test123" "Test Shirt" "shirt" "white" 3)
               [Log ERROR;
                SetUpdatedData {["test123" := new_GarmentData "test123"
                                  "Test Shirt" "shirt" "white" 3]}]).
      reflexivity.
    + eapply rtc_once.
      apply (step_log_wash_cycle _ _ (mkEnv "t1" true) "test123" "hand" true
               [Log ERROR;
                SetUpdatedData {["test123" := log_wash_cycle_garment "t1" "hand"
                  (new_GarmentData "test123" "Test Shirt" "shirt" "white" 3)]}]).
      reflexivity.
  - intros tag g Hg. simpl in Hg. by rewrite lookup_empty in Hg.
  - reflexivity.
Defined.

(** ** coordinator.py: registration and removal *)

(** X11. Removing a garment: for a tag that is not in the directory the
    call returns [False], changes nothing and emits nothing (no save, no
    notification); for a tag that is, it returns [True], the tag is gone,
    every other garment and the scanners stay, and the sensors of the tag
    read [None] afterwards. *)
Theorem async_remove_garment_effect (e : env) (tag : string) (self : state) :
  (garments self !! tag = None →
     async_remove_garment e tag self = Returned (false, self, []))
  ∧ (is_Some (garments self !! tag) →
     ∃ self' trace,
       async_remove_garment e tag self = Returned (true, self', trace)
       ∧ garments self' !! tag = None
       ∧ (∀ tag', tag' ≠ tag → garments self' !! tag' = garments self !! tag')
       ∧ scanners self' = scanners self
       ∧ is_on self' tag = None
       ∧ current_option self' tag = None).
Proof.
  rewrite async_remove_garment_eq. split.
  - by intros ->.
  - intros [g ->]. simpl. do 2 eexists. split; [reflexivity |].
    unfold is_on, current_option. simpl. rewrite lookup_delete_eq.
    repeat split. intros tag' Hne. by rewrite lookup_delete_ne.
Qed.

Lemma async_remove_garment_effect_witness :
  let self :=
    mkState {["test123" := new_GarmentData "test123" "Test Shirt" "shirt" "white" 3]}
      ∅ in
  async_remove_garment (mkEnv "t0" false) "other" self = Returned (false, self, []).
Proof.
  intros self.
  apply (proj1 (async_remove_garment_effect (mkEnv "t0" false) "other" self)).
  reflexivity.
Defined.

(** X12. Registering a garment under a tag that is not in the directory and
    then removing that tag gives back the coordinator as it was before the
    registration; in between, the tag holds a clean record with both
    counters 0, no timestamps and no wash cycles. *)
Theorem register_then_remove
    (e e' : env) (tag n c col : string) (thr : Z) (self : state) :
  garments self !! tag = None →
  ∃ g self1 trace1 trace2,
    async_register_garment e tag n c col thr self = Returned (g, self1, trace1)
    ∧ garments self1 !! tag = Some g
    ∧ g = mkGarmentData tag n c col CLEAN 0 0 thr None None None []
    ∧ async_remove_garment e' tag self1 = Returned (true, self, trace2).
Proof.
  intros Hfresh. rewrite async_register_garment_eq. simpl.
  do 4 eexists. split; [reflexivity |].
  split; [by rewrite lookup_with_garment, decide_True |].
  split; [reflexivity |].
  rewrite async_remove_garment_eq, lookup_with_garment, decide_True by done.
  simpl. rewrite delete_insert_eq, (delete_id _ _ Hfresh).
  destruct self as [gs ss]. reflexivity.
Qed.

Lemma register_then_remove_witness :
  ∃ g self1 trace1 trace2,
    async_register_garment (mkEnv "t0" false)
      "test123" "Test Shirt" "shirt" "white" 3 (mkState ∅ ∅)
    = Returned (g, self1, trace1)
    ∧ garments self1 !! "test123" = Some g
    ∧ g = mkGarmentData "test123" "Test Shirt" "shirt" "white" CLEAN 0 0 3
            None None None []
    ∧ async_remove_garment (mkEnv "t1" false) "test123" self1
      = Returned (true, mkState ∅ ∅, trace2).
Proof.
  apply (register_then_remove (mkEnv "t0" false) (mkEnv "t1" false)
           "test123" "Test Shirt" "shirt" "white" 3 (mkState ∅ ∅)).
  reflexivity.
Defined.

(** X13. Registering a scanner: afterwards its id resolves to a role exactly
    when the registered role string is that role's value, and to no role
    when the string is no role's value (its scans are then ignored); every
    other scanner id resolves as before and the garments are untouched.
    The call saves but sends no update notification. *)
Theorem async_register_scanner_effect
    (e : env) (sid role n : string) (self : state) :
  ∃ self' trace,
    async_register_scanner e sid role n self = Returned (tt, self', trace)
    ∧ garments self' = garments self
    ∧ (∀ r, get_scanner_role self' sid = Returned (Some r) ↔ role_value r = role)
    ∧ ((∀ r, role_value r ≠ role) ↔ get_scanner_role self' sid = Returned None)
    ∧ (∀ sid', sid' ≠ sid →
         get_scanner_role self' sid' = get_scanner_role self sid')
    ∧ (∀ data, SetUpdatedData data ∉ trace).
Proof.
  rewrite async_register_scanner_eq. simpl. do 2 eexists.
  split; [reflexivity |]. split; [reflexivity |].
  assert (Hres : ∀ o,
            get_scanner_role
              (mkState (garments self)
                 (<[sid := <["role" := role]> (<["name" := n]> ∅)]> (scanners self)))
              sid = Returned o
            ↔ match o with
              | Some r => role_value r = role
              | None => ∀ r, role_value r ≠ role
              end).
  { intros o. unfold get_scanner_role. simpl.
    rewrite lookup_insert_eq, lookup_insert_eq. simpl.
    destruct (ScannerRole_of_value_cases role) as [(r' & Hr' & Hv) | Hraise].
    - rewrite Hr'. simpl. split.
      + intros [= <-]. exact Hv.
      + destruct o as [r|].
        * intros Hr. f_equal. f_equal.
          apply ScannerRole_of_value_Returned in Hr. rewrite Hr' in Hr.
          by injection Hr.
        * intros Hno. by apply Hno in Hv.
    - rewrite Hraise. simpl. split.
      + intros [= <-]. by apply ScannerRole_of_value_Raised.
      + destruct o as [r|]; [| reflexivity].
        intros Hr. apply ScannerRole_of_value_Returned in Hr.
        rewrite Hraise in Hr. discriminate. }
  split; [intros r; apply (Hres (Some r)) |].
  split; [symmetry; apply (Hres None) |].
  split.
  - intros sid' Hne. unfold get_scanner_role. simpl.
    by rewrite lookup_insert_ne.
  - intros data Hin. unfold save_trace in Hin.
    destruct (store_save_raises e); apply list_elem_of_In in Hin; simpl in Hin;
      by destruct Hin as [[=] | []].
Qed.

(** ** coordinator.py: loading *)

Lemma from_dict_to_dict_under (tag : string) (g : GarmentData) :
  from_dict tag (to_dict g) =
    Returned (mkGarmentData tag (name g) (category g) (color g) (garment_state g)
                (wear_count_since_wash g) (total_wear_count g)
                (needs_washing_threshold g)
                (last_worn g) (last_washed g) (last_scanned_at g) (wash_cycles g)).
Proof.
  unfold from_dict, to_dict. simpl.
  rewrite GarmentState_of_value_state_value. simpl.
  by rewrite wash_cycles_roundtrip.
Qed.

Lemma load_garment_Returned
    (raw : string * GarmentDict) (out : string * GarmentData) :
  load_garment raw = Returned out ↔
  out.1 = raw.1 ∧ from_dict raw.1 raw.2 = Returned out.2.
Proof.
  unfold load_garment. destruct (from_dict raw.1 raw.2) as [g|ex]; simpl.
  - destruct out as [k g']. simpl. split.
    + by intros [= <- <-].
    + by intros [-> [= ->]].
  - split; [discriminate | by intros [_ [=]]].
Qed.

(** What the comprehension of [async_load] yields, key by key. *)
Lemma load_garments_lookup
    (items : list (string * GarmentDict)) (loaded : list (string * GarmentData)) :
  NoDup (items.*1) →
  comprehension load_garment items = Returned loaded →
  ∀ tag g,
    (list_to_map loaded : gmap string GarmentData) !! tag = Some g ↔
    ∃ d, (tag, d) ∈ items ∧ from_dict tag d = Returned g.
Proof.
  intros Hnd Hload.
  assert (Hkeys : loaded.*1 = items.*1
                  ∧ ∀ tag g, (tag, g) ∈ loaded ↔
                      ∃ d, (tag, d) ∈ items ∧ from_dict tag d = Returned g).
  { clear Hnd. revert loaded Hload.
    induction items as [|[k d] items IH]; intros loaded; simpl.
    - intros [= <-]. split; [reflexivity |]. intros tag g.
      rewrite elem_of_nil. split; [done |]. intros (d & Hin & _).
      by rewrite elem_of_nil in Hin.
    - destruct (load_garment (k, d)) as [[k' g0]|ex] eqn:Hone; simpl;
        [| discriminate].
      apply (load_garment_Returned (k, d)) in Hone as [Hk Hdec]. simpl in *.
      subst k'.
      destruct (comprehension load_garment items) as [rest|ex]; simpl;
        [| discriminate].
      intros [= <-]. destruct (IH rest eq_refl) as [Hfst Hin].
      split; [rewrite !fmap_cons; by rewrite Hfst |].
      intros tag g. rewrite elem_of_cons, Hin. split.
      + intros [[= -> ->] | (d' & Hd' & Hdec')].
        * exists d. split; [apply elem_of_cons; by left | exact Hdec].
        * exists d'. split; [apply elem_of_cons; by right | exact Hdec'].
      + intros (d' & Hd' & Hdec'). apply elem_of_cons in Hd' as [[= -> ->] | Hd'].
        * left. congruence.
        * right. eauto. }
  destruct Hkeys as [Hfst Hin]. intros tag g.
  rewrite <- Hin. symmetry. apply elem_of_list_to_map. by rewrite Hfst.
Qed.

(** Loading a typed document returns normally exactly when every stored
    garment dictionary is decodable.  When it returns, the scanners are the
    stored ones, each stored tag holds what [from_dict] decodes under that
    tag (and no other tag holds anything), and one update notification is
    sent; a missing document, or a document without "scanners" or
    "garments", gives empty maps for what is missing. *)
Lemma async_load_typed (stored : option document) (self0 : state) :
  let doc := default (mkDocument (Some ∅) (Some ∅)) stored in
  let raw := default ∅ (doc_garments doc) in
  (returns_normally (async_load stored self0)
   ↔ ∀ tag d, raw !! tag = Some d → decodable d)
  ∧ (∀ self trace,
       async_load stored self0 = Returned (tt, self, trace) →
       scanners self = default ∅ (doc_scanners doc)
       ∧ (∀ tag g, garments self !! tag = Some g ↔
            ∃ d, raw !! tag = Some d ∧ from_dict tag d = Returned g)
       ∧ trace = [SetUpdatedData (garments self)]).
Proof.
  intros doc raw. rewrite async_load_eq. cbv zeta. fold doc. fold raw.
  split.
  - transitivity (returns_normally (comprehension load_garment (map_to_list raw))).
    { unfold returns_normally.
      destruct (comprehension load_garment (map_to_list raw)) as [loaded|ex].
      - split; intros _; by eexists.
      - split; intros [? [=]]. }
    rewrite comprehension_returns, Forall_forall. split.
    + intros Hall tag d Hd. apply (from_dict_returns tag).
      apply elem_of_map_to_list in Hd. apply Hall in Hd as [[k g] Hd].
      apply (load_garment_Returned (tag, d)) in Hd as [_ Hd]. by eexists.
    + intros Hdec [tag d] Hin. apply elem_of_map_to_list in Hin.
      apply Hdec, (from_dict_returns tag) in Hin as [g Hg].
      exists (tag, g). by apply (load_garment_Returned (tag, d)).
  - intros self trace.
    destruct (comprehension load_garment (map_to_list raw)) as [loaded|ex]
      eqn:Hload; [| discriminate].
    intros [= <- <-]. simpl. split; [reflexivity |]. split; [| reflexivity].
    intros tag g.
    rewrite (load_garments_lookup _ _ (NoDup_fst_map_to_list raw) Hload).
    by setoid_rewrite elem_of_map_to_list.
Qed.

Example async_load_missing_document (self0 : state) :
  async_load None self0 = Returned (tt, mkState ∅ ∅, [SetUpdatedData ∅]).
Proof.
  rewrite async_load_eq. simpl. by rewrite map_to_list_empty.
Qed.







Example async_load_py_garments_not_a_dict :
  async_load_py (Some [("scanners", PyDict []); ("garments", PyList [])])
  = PyRaised PyAttributeError.
Proof. reflexivity. Qed.

Example async_load_py_null_wash_cycles :
  async_load_py
    (Some [("garments",
            PyDict [("tag1", PyDict [("name", PyStr "Shirt");
                                     ("category", PyStr "shirt");
                                     ("wash_cycles", PyNone)])])])
  = PyRaised PyTypeError.
Proof. reflexivity. Qed.

(** X15. What a save writes, a load reads back: when every garment is stored
    under its own tag id and the store works, [_async_save] hands the
    store one document, and [async_load] on that document, into any
    coordinator, gives the coordinator that was saved. *)
Theorem save_then_load (e : env) (self self0 : state) :
  keys_consistent self →
  store_save_raises e = false →
  ∃ saved_scanners saved_garments,
    _async_save e self
    = Returned (tt, self, [StoreSave saved_scanners saved_garments])
    ∧ async_load
        (Some (mkDocument (Some saved_scanners) (Some saved_garments))) self0
      = Returned (tt, self, [SetUpdatedData (garments self)]).
Proof.
  intros Hkeys Hstore. rewrite _async_save_eq. unfold save_trace.
  rewrite Hstore. do 2 eexists. split; [reflexivity |].
  pose proof (async_load_typed
                (Some (mkDocument (Some (scanners self))
                         (Some (to_dict <$> garments self)))) self0)
    as [Hret Hspec].
  simpl in Hret, Hspec.
  destruct (proj2 Hret) as [[[[] self'] trace] Hload].
  { intros tag d Hd. apply lookup_fmap_Some in Hd as (g & <- & _).
    apply to_dict_decodable. }
  rewrite Hload. destruct (Hspec _ _ Hload) as (Hsc & Hgs & ->).
  assert (Hself : self' = self); [| by rewrite Hself].
  destruct self' as [gs' ss'], self as [gs ss]. simpl in *. subst ss'.
  f_equal. apply map_eq. intros tag. apply option_eq. intros g.
  rewrite Hgs. split.
  - intros (d & Hd & Hdec). apply lookup_fmap_Some in Hd as (g0 & <- & Hg0).
    rewrite from_dict_to_dict_under in Hdec. injection Hdec as <-.
    rewrite Hg0. f_equal. rewrite <- (Hkeys _ _ Hg0). by destruct g0.
  - intros Hg. exists (to_dict g). split.
    + by rewrite lookup_fmap, Hg.
    + rewrite from_dict_to_dict_under, <- (Hkeys _ _ Hg). by destruct g.
Qed.

Lemma save_then_load_witness :
  let g := mkGarmentData "test123" "Test Shirt" "shirt" "white" WASHING
             0 7 3 (Some "t0") (Some "t1") (Some "nfc_washer")
             [mkWashCycle "t1" "machine"] in
  let self :=
    mkState {["test123" := g]}
      {["nfc_washer" := <["role" := "washer"]> {["name" := "Washer"]}]} in
  ∃ saved_scanners saved_garments,
    _async_save (mkEnv "t2" false) self
    = Returned (tt, self, [StoreSave saved_scanners saved_garments])
    ∧ async_load
        (Some (mkDocument (Some saved_scanners) (Some saved_garments)))
        (mkState ∅ ∅)
      = Returned (tt, self, [SetUpdatedData (garments self)]).
Proof.
  intros g self.
  apply (save_then_load (mkEnv "t2" false) self (mkState ∅ ∅)); [| reflexivity].
  intros tag g0 Hg0. simpl in Hg0.
  apply lookup_singleton_Some in Hg0 as [<- <-]. reflexivity.
Defined.

(** ** The entities *)

Lemma state_value_inj (s s' : GarmentState) :
  state_value s = state_value s' → s = s'.
Proof. destruct s, s'; intros [=]; reflexivity. Qed.

(** X16. The needs-washing indicator after manual operations: right after a
    manual wash log of a garment the indicator is on only if its threshold
    is zero or negative (so it is off for every positive threshold), while
    a force-state call and a button press, on any tag and to any state,
    leave the indicator of every tag as it was. *)
Theorem is_on_after_manual_operations (e : env) (self : state) :
  (∀ tag g m, garments self !! tag = Some g →
     ∃ self' trace,
       async_log_wash_cycle e tag m self = Returned (true, self', trace)
       ∧ is_on self' tag = Some (bool_decide (needs_washing_threshold g ≤ 0)%Z))
  ∧ (∀ tag st, ∃ ok self' trace,
       async_force_state e tag st self = Returned (ok, self', trace)
       ∧ ∀ tag', is_on self' tag' = is_on self tag')
  ∧ (∀ tag description, ∃ self' trace,
       async_press e tag description self = Returned (tt, self', trace)
       ∧ ∀ tag', is_on self' tag' = is_on self tag').
Proof.
  assert (Hforce : ∀ tag st g, garments self !! tag = Some g →
            ∀ tag', is_on (with_garment tag (set_garment_state st g) self) tag'
                    = is_on self tag').
  { intros tag st g Hg tag'. unfold is_on. rewrite lookup_with_garment.
    case_decide; [subst; by rewrite Hg | reflexivity]. }
  refine (conj _ (conj _ _)).
  - intros tag g m Hg. rewrite async_log_wash_cycle_eq, Hg. simpl.
    do 2 eexists. split; [reflexivity |].
    unfold is_on. rewrite lookup_with_garment, decide_True by done. simpl.
    f_equal. apply eq_true_iff_eq. rewrite Z.geb_le, bool_decide_eq_true.
    reflexivity.
  - intros tag st. rewrite async_force_state_eq.
    destruct (garments self !! tag) as [g|] eqn:Hg; simpl.
    + do 3 eexists. split; [reflexivity |]. by apply Hforce.
    + by do 3 eexists.
  - intros tag description. rewrite async_press_eq.
    destruct (garments self !! tag) as [g|] eqn:Hg; simpl.
    + do 2 eexists. split; [reflexivity |]. by apply Hforce.
    + by do 2 eexists.
Qed.

Lemma is_on_after_manual_operations_witness :
  let g := mkGarmentData "test123" "Test Shirt" "shirt" "white" WORN
             5 20 3 (Some "t0") None (Some "nfc_closet") [] in
  let self := mkState {["test123" := g]} ∅ in
  ∃ self' trace,
    async_log_wash_cycle (mkEnv "t1" false) "test123" "hand" self
    = Returned (true, self', trace)
    ∧ is_on self' "test123" = Some (bool_decide (needs_washing_threshold g ≤ 0)%Z).
Proof.
  intros g self.
  apply (proj1 (is_on_after_manual_operations (mkEnv "t1" false) self)
           "test123" g "hand").
  reflexivity.
Defined.

(** X17. The state-change event entity and scans.  An entity that has seen
    the garment in its state before an accepted scan fires, on the update
    after the scan, exactly one event, typed by the new state and carrying
    the previous and the new state, and then remembers the new state; on a
    further update with nothing changed it fires none.  An entity that has
    seen no update yet fires none on its first update, whatever the state;
    an entity whose garment is gone does nothing at all. *)
Theorem state_change_event_after_scan
    (now sid : string) (g g' : GarmentData) (r : ScannerRole)
    (self : state) (tag : string) :
  transition now g r sid = (g', Some g') →
  let before := state_value (garment_state g) in
  let after := state_value (garment_state g') in
  let self' := with_garment tag g' self in
  let seen := mkGarmentStateChangeEvent tag (Some after) in
  _handle_coordinator_update self' (mkGarmentStateChangeEvent tag (Some before))
  = (seen,
     [TriggerEvent after [("previous_state", before); ("new_state", after)];
      WriteHaState])
  ∧ _handle_coordinator_update self' seen = (seen, [WriteHaState])
  ∧ _handle_coordinator_update self' (new_GarmentStateChangeEvent tag)
    = (seen, [WriteHaState])
  ∧ (∀ entity coordinator,
       garments coordinator !! event_tag_id entity = None →
       _handle_coordinator_update coordinator entity = (entity, [])).
Proof.
  intros Htr before after self' seen.
  assert (Hne : after ≠ before).
  { intros Heq. apply state_value_inj in Heq.
    destruct (TRANSITIONS_get (r, garment_state g)) as [t|] eqn:Hget.
    - rewrite (transition_accepted now sid g r t Hget) in Htr.
      simpl in Htr. injection Htr as <-.
      apply TRANSITIONS_get_Some in Hget.
      revert Heq Hget. generalize (garment_state g). intros s Heq Hin.
      assert (t = s) as -> by (by destruct t).
      vm_compute in Hin.
      repeat (destruct Hin as [[= <- <-] | Hin]; [discriminate |]).
      destruct Hin.
    - rewrite (transition_rejected now sid g r Hget) in Htr. discriminate. }
  unfold _handle_coordinator_update, new_GarmentStateChangeEvent. simpl.
  rewrite lookup_insert_eq. fold after.
  rewrite decide_True by done. rewrite decide_False by (by intros []).
  repeat split. intros entity coordinator ->. reflexivity.
Qed.

Lemma state_change_event_after_scan_witness :
  let g := new_GarmentData "test123" "Test Shirt" "shirt" "white" 3 in
  let g' := (transition "t0" g CLOSET "nfc_closet").1 in
  _handle_coordinator_update (with_garment "test123" g' (mkState ∅ ∅))
    (mkGarmentStateChangeEvent "test123" (Some "clean"))
  = (mkGarmentStateChangeEvent "test123" (Some "worn"),
     [TriggerEvent "worn" [("previous_state", "clean"); ("new_state", "worn")];
      WriteHaState]).
Proof.
  intros g g'.
  apply (proj1 (state_change_event_after_scan "t0" "nfc_closet" g g' CLOSET
                  (mkState ∅ ∅) "test123" eq_refl)).
Defined.

(** X18. The select entity: choosing the value of a state on the entity of a
    registered garment makes that value the current option, whatever the
    garment's state was; choosing a string that is no state's value raises
    [ValueError] and changes nothing; on a tag without a garment the
    current option is [None] and choosing changes nothing. *)
Theorem select_option_round_trip (e : env) (tag : string) (self : state) :
  (∀ s, is_Some (garments self !! tag) →
     ∃ self' trace,
       async_select_option e tag (state_value s) self = Returned (tt, self', trace)
       ∧ current_option self' tag = Some (state_value s))
  ∧ (∀ option, (∀ s, state_value s ≠ option) →
       async_select_option e tag option self = Raised (ValueError option))
  ∧ (garments self !! tag = None →
     current_option self tag = None
     ∧ ∀ s, async_select_option e tag (state_value s) self
            = Returned (tt, self, [])).
Proof.
  refine (conj _ (conj _ _)).
  - intros s [g Hg]. rewrite async_select_option_eq.
    rewrite GarmentState_of_value_state_value, Hg. simpl.
    do 2 eexists. split; [reflexivity |].
    unfold current_option. by rewrite lookup_with_garment, decide_True.
  - intros option Hno. rewrite async_select_option_eq.
    destruct (GarmentState_of_value_cases option) as [(s & _ & Hs) | [-> _]];
      [by apply Hno in Hs | reflexivity].
  - intros Hg. unfold current_option. rewrite Hg. split; [reflexivity |].
    intros s. rewrite async_select_option_eq.
    by rewrite GarmentState_of_value_state_value, Hg.
Qed.

Lemma select_option_round_trip_witness :
  let self :=
    mkState {["test123" := new_GarmentData "test123" "Test Shirt" "shirt" "white" 3]}
      ∅ in
  ∃ self' trace,
    async_select_option (mkEnv "t0" false) "test123" (state_value DRYING) self
    = Returned (tt, self', trace)
    ∧ current_option self' "test123" = Some (state_value DRYING).
Proof.
  intros self.
  apply (proj1 (select_option_round_trip (mkEnv "t0" false) "test123" self)
           DRYING).
  by eexists.
Defined.

Lemma filter_none {A} (P : A → Prop) `{!∀ x, Decision (P x)} (l : list A) :
  Forall (λ x, ¬ P x) l → filter P l = [].
Proof.
  induction 1 as [|x l Hx _ IH]; [reflexivity |].
  by rewrite filter_cons_False.
Qed.

(** X19. One entity per garment.  After the update listener has run, every
    garment of the directory has an entity, the entities there were are
    still there (also those whose garment was removed), the new ones are
    exactly the tags of the directory that had none, and tags are not
    doubled; running the listener again on the same directory adds
    nothing.  Set-up creates exactly one entity per garment. *)
Theorem entities_follow_directory (coordinator : state) (entities : list string) :
  let entities' := (_async_on_data_updated coordinator entities).1 in
  let new_entities := (_async_on_data_updated coordinator entities).2 in
  (∀ tag, tag ∈ entities' ↔
          tag ∈ entities ∨ is_Some (garments coordinator !! tag))
  ∧ (∀ tag, tag ∈ new_entities ↔
            is_Some (garments coordinator !! tag) ∧ tag ∉ entities)
  ∧ (NoDup entities → NoDup entities')
  ∧ _async_on_data_updated coordinator entities' = (entities', [])
  ∧ NoDup (setup_entities coordinator)
  ∧ (∀ tag, tag ∈ setup_entities coordinator ↔
            is_Some (garments coordinator !! tag)).
Proof.
  assert (Hkeys : ∀ tag, tag ∈ (map_to_list (garments coordinator)).*1
                         ↔ is_Some (garments coordinator !! tag)).
  { intros tag. rewrite list_elem_of_fmap. split.
    - intros ([k g] & -> & Hin). apply elem_of_map_to_list in Hin. by eexists.
    - intros [g Hg]. exists (tag, g). split; [reflexivity |].
      by apply elem_of_map_to_list. }
  unfold _async_on_data_updated, setup_entities. simpl.
  assert (Hnew : ∀ tag,
            tag ∈ filter (λ tag, tag ∉ entities)
                    (map_to_list (garments coordinator)).*1
            ↔ is_Some (garments coordinator !! tag) ∧ tag ∉ entities).
  { intros tag. rewrite list_elem_of_filter, Hkeys. tauto. }
  refine (conj _ (conj Hnew (conj _ (conj _ (conj _ Hkeys))))).
  - intros tag. rewrite elem_of_app, Hnew.
    destruct (decide (tag ∈ entities)); tauto.
  - intros Hnd. apply NoDup_app. split; [exact Hnd |]. split.
    + intros tag Hin Hin'. apply Hnew in Hin' as [_ Hout]. by apply Hout.
    + apply NoDup_filter, NoDup_fst_map_to_list.
  - f_equal.
    + rewrite <- (app_nil_r (entities ++ _)) at 2. f_equal.
      apply filter_none, Forall_forall. intros tag Hin Hout.
      apply Hout. rewrite elem_of_app, Hnew.
      apply Hkeys in Hin. destruct (decide (tag ∈ entities)); tauto.
    + apply filter_none, Forall_forall. intros tag Hin Hout.
      apply Hout. rewrite elem_of_app, Hnew.
      apply Hkeys in Hin. destruct (decide (tag ∈ entities)); tauto.
  - apply NoDup_fst_map_to_list.
Qed.

(** ** config_flow.py: the add-garment step *)

(** X20. The add-garment step of the options flow: with a tag id that is
    already registered it shows the form again with the error
    "tag_already_registered", leaves the coordinator as it was and emits
    nothing; with a tag id that is not registered it registers a new clean
    garment under it (colour and threshold defaulting to "" and 3), asks
    for its device and finishes; without user input it shows the form. *)
Theorem async_step_add_garment_effect
    (e : env) (user_input : garment_form) (self : state) :
  (is_Some (garments self !! f_tag_id user_input) →
     async_step_add_garment e (Some user_input) self
     = Returned (ShowForm "add_garment" {["base" := "tag_already_registered"]},
                 self, []))
  ∧ (garments self !! f_tag_id user_input = None →
     let g :=
       mkGarmentData (f_tag_id user_input) (f_garment_name user_input)
         (f_category user_input) (default "" (f_color user_input)) CLEAN 0 0
         (default 3%Z (f_needs_washing_threshold user_input)) None None None [] in
     ∃ self' trace,
       async_step_add_garment e (Some user_input) self
       = Returned (CreateEntry, self', trace)
       ∧ garments self' = <[f_tag_id user_input := g]> (garments self)
       ∧ scanners self' = scanners self
       ∧ DeviceGetOrCreate (f_tag_id user_input) (f_garment_name user_input)
           (f_category user_input) ∈ trace)
  ∧ async_step_add_garment e None self
    = Returned (ShowForm "add_garment" ∅, self, []).
Proof.
  unfold async_step_add_garment.
  unfold mbind, M_bind, bind, get_self. simpl.
  refine (conj _ (conj _ eq_refl)).
  - intros Hin. by rewrite decide_True.
  - intros Hout. rewrite decide_False by (rewrite Hout; by intros [? [=]]).
    rewrite async_register_garment_eq. simpl.
    do 2 eexists. split; [reflexivity |]. split; [reflexivity |].
    split; [reflexivity |].
    rewrite elem_of_app. right. apply elem_of_cons. by left.
Qed.

Lemma async_step_add_garment_effect_witness :
  let self :=
    mkState {["test123" := new_GarmentData "test123" "Test Shirt" "shirt" "white" 3]}
      ∅ in
  async_step_add_garment (mkEnv "t0" false)
    (Some (mkGarmentForm "test123" "Other Shirt" "shirt" None None)) self
  = Returned (ShowForm "add_garment" {["base" := "tag_already_registered"]},
              self, []).
Proof.
  intros self.
  apply (proj1 (async_step_add_garment_effect (mkEnv "t0" false)
                  (mkGarmentForm "test123" "Other Shirt" "shirt" None None) self)).
  by eexists.
Defined.

(** X21. On a tag id that is not registered, the register_garment service
    and the add-garment step of the options flow do the same: they leave
    the same coordinator, with the same new record, and emit the same
    effects. *)
Theorem register_service_and_flow_agree
    (e : env) (form : garment_form) (self : state) :
  garments self !! f_tag_id form = None →
  ∃ self' trace,
    handle_register_garment e form self = Returned (tt, self', trace)
    ∧ async_step_add_garment e (Some form) self
      = Returned (CreateEntry, self', trace)
    ∧ garments self' !! f_tag_id form
      = Some (new_GarmentData (f_tag_id form) (f_garment_name form)
                (f_category form) (default "" (f_color form))
                (default 3%Z (f_needs_washing_threshold form))).
Proof.
  intros Hout. rewrite handle_register_garment_eq. simpl.
  do 2 eexists. split; [reflexivity |]. split.
  - unfold async_step_add_garment.
    unfold mbind, M_bind, bind, get_self. simpl.
    rewrite decide_False by (rewrite Hout; by intros [? [=]]).
    rewrite async_register_garment_eq. reflexivity.
  - by rewrite lookup_with_garment, decide_True.
Qed.

Lemma register_service_and_flow_agree_witness :
  let form := mkGarmentForm "test123" "Test Shirt" "shirt" None None in
  ∃ self' trace,
    handle_register_garment (mkEnv "t0" false) form (mkState ∅ ∅)
    = Returned (tt, self', trace)
    ∧ async_step_add_garment (mkEnv "t0" false) (Some form) (mkState ∅ ∅)
      = Returned (CreateEntry, self', trace)
    ∧ garments self' !! "test123"
      = Some (new_GarmentData "test123" "Test Shirt" "shirt" "" 3).
Proof.
  intros form.
  apply (register_service_and_flow_agree (mkEnv "t0" false) form (mkState ∅ ∅)).
  reflexivity.
Defined.

(** ** config_flow.py: the remove-scanner step *)

Lemma scanner_option_returns (item : string * gmap string string) :
  returns_normally (scanner_option item)
  ↔ is_Some (item.2 !! "name") ∧ is_Some (item.2 !! "role").
Proof.
  unfold scanner_option, returns_normally, is_Some.
  destruct (item.2 !! "name") as [n|], (item.2 !! "role") as [r|]; simpl;
    split; intros H; try (by eauto);
    [destruct H as [? [=]] | destruct H as (_ & ? & [=])
    | destruct H as [? [=]] | destruct H as ([? [=]] & _)
    | destruct H as [? [=]] | destruct H as ([? [=]] & _)].
Qed.

Lemma async_step_remove_scanner_eq
    (e : env) (user_input : option string) (self : state) :
  async_step_remove_scanner e user_input self =
    if decide (scanners self = ∅) then Returned (Abort "no_scanners", self, [])
    else
      match user_input with
      | Some sid =>
          let self' := mkState (garments self) (delete sid (scanners self)) in
          Returned (Flow CreateEntry, self', save_trace e self')
      | None =>
          match comprehension scanner_option (map_to_list (scanners self)) with
          | Returned _ => Returned (Flow (ShowForm "remove_scanner" ∅), self, [])
          | Raised ex => Raised ex
          end
      end.
Proof.
  unfold async_step_remove_scanner, mbind, M_bind, bind, get_self. simpl.
  case_decide; [reflexivity |].
  destruct user_input as [sid|].
  - unfold pop_scanner, _async_save, try_except, store_async_save, mbind,
      M_bind, bind, get_self, emit, lift, ret, save_trace.
    simpl. by destruct (store_save_raises e).
  - unfold lift, ret.
    by destruct (comprehension scanner_option (map_to_list (scanners self))).
Qed.

Lemma comprehension_raises {A B} (f : A → outcome B) (l : list A) (ex : exn) :
  comprehension f l = Raised ex → ∃ x, x ∈ l ∧ f x = Raised ex.
Proof.
  induction l as [|x l IH]; simpl; [discriminate |].
  destruct (f x) as [y|ex'] eqn:Hx; simpl.
  - destruct (comprehension f l) as [ys|ex']; simpl; [discriminate |].
    intros [= <-]. destruct (IH eq_refl) as (x' & Hin & Hx').
    exists x'. split; [by apply elem_of_cons; right | exact Hx'].
  - intros [= <-]. exists x. split; [by apply elem_of_cons; left | exact Hx].
Qed.

Lemma scanner_option_raises (item : string * gmap string string) (ex : exn) :
  scanner_option item = Raised ex →
  (item.2 !! "name" = None ∧ ex = KeyError "name")
  ∨ (is_Some (item.2 !! "name") ∧ item.2 !! "role" = None
     ∧ ex = KeyError "role").
Proof.
  unfold scanner_option.
  destruct (item.2 !! "name") as [n|] eqn:Hn; simpl.
  - destruct (item.2 !! "role") as [r|] eqn:Hr; simpl; [discriminate |].
    intros [= <-]. right. by eauto.
  - intros [= <-]. by left.
Qed.

(** X22. The remove-scanner step of the options flow.  With no scanner
    registered it aborts with "no_scanners" and changes nothing.
    Otherwise, given a scanner id, it removes that scanner (an unknown id
    is no error), keeps the other scanners and the garments, and then
    saves: the trace is exactly the save of the scanners and garments
    after the removal, or the error log line when the store raises, so
    there is no update notification; the step creates the entry, and
    every later scan from that scanner id is ignored without any signal.
    Given no input, it builds the form: it returns normally exactly when
    every registered scanner has a "name" and a "role", then showing the
    form "remove_scanner" with the coordinator unchanged and no effect;
    otherwise it raises the [KeyError] of a registered scanner, "name"
    when that scanner has no "name" and "role" when it has a "name" but
    no "role". *)
Theorem async_step_remove_scanner_effect (e : env) (self : state) :
  (scanners self = ∅ →
     ∀ user_input,
       async_step_remove_scanner e user_input self
       = Returned (Abort "no_scanners", self, []))
  ∧ (scanners self ≠ ∅ →
     (∀ sid,
        let self' := mkState (garments self) (delete sid (scanners self)) in
        let trace :=
          if store_save_raises e then [Log ERROR]
          else [StoreSave (scanners self') (to_dict <$> garments self')] in
        async_step_remove_scanner e (Some sid) self
        = Returned (Flow CreateEntry, self', trace)
        ∧ (∀ data, SetUpdatedData data ∉ trace)
        ∧ (∀ e' tag, ∃ trace',
             handle_tag_scanned e' (mkScanEvent tag (Some sid)) self'
             = Returned (tt, self', trace')
             ∧ signals trace' = []))
     ∧ (returns_normally (async_step_remove_scanner e None self)
        ↔ ∀ sid info, scanners self !! sid = Some info →
                      is_Some (info !! "name") ∧ is_Some (info !! "role"))
     ∧ (∀ r, async_step_remove_scanner e None self = Returned r →
             r = (Flow (ShowForm "remove_scanner" ∅), self, []))
     ∧ (∀ ex, async_step_remove_scanner e None self = Raised ex →
          ∃ sid info, scanners self !! sid = Some info
            ∧ ((info !! "name" = None ∧ ex = KeyError "name")
               ∨ (is_Some (info !! "name") ∧ info !! "role" = None
                  ∧ ex = KeyError "role")))).
Proof.
  split.
  - intros Hempty user_input. rewrite async_step_remove_scanner_eq.
    by rewrite decide_True.
  - intros Hsome. refine (conj _ (conj _ (conj _ _))).
    + intros sid self' trace. rewrite async_step_remove_scanner_eq.
      rewrite decide_False by done.
      split; [reflexivity |]. split.
      * intros data Hin. subst trace.
        destruct (store_save_raises e); apply list_elem_of_In in Hin;
          simpl in Hin; by destruct Hin as [[=] | []].
      * intros e' tag. rewrite handle_tag_scanned_eq. simpl.
        destruct tag as [tag|]; [| by eexists].
        destruct (bool_decide (tag = "") || bool_decide (sid = ""));
          [by eexists |].
        unfold get_scanner_role. simpl. rewrite lookup_delete_eq. by eexists.
    + rewrite async_step_remove_scanner_eq. rewrite decide_False by done.
      transitivity (returns_normally
                      (comprehension scanner_option (map_to_list (scanners self)))).
      { unfold returns_normally.
        destruct (comprehension scanner_option _) as [opts|ex].
        - split; intros _; by eexists.
        - split; intros [? [=]]. }
      rewrite comprehension_returns, Forall_forall.
      setoid_rewrite scanner_option_returns. split.
      * intros Hall sid info Hin. apply elem_of_map_to_list in Hin.
        by apply Hall in Hin.
      * intros Hall [sid info] Hin. apply elem_of_map_to_list in Hin. simpl.
        by apply (Hall sid).
    + intros r. rewrite async_step_remove_scanner_eq.
      rewrite decide_False by done.
      destruct (comprehension scanner_option _) as [opts|ex]; [| discriminate].
      by intros [= <-].
    + intros ex. rewrite async_step_remove_scanner_eq.
      rewrite decide_False by done.
      destruct (comprehension scanner_option _) as [opts|ex'] eqn:Hcomp;
        [discriminate |].
      intros [= <-].
      apply comprehension_raises in Hcomp as ([sid info] & Hin & Hopt).
      apply elem_of_map_to_list in Hin.
      apply scanner_option_raises in Hopt. by exists sid, info.
Qed.

Lemma async_step_remove_scanner_effect_witness :
  async_step_remove_scanner (mkEnv "t0" false) (Some "nfc_closet")
    (mkState ∅
       (<["nfc_closet" := {["name" := "Closet"; "role" := "closet"]}]>
          (<["nfc_basket" := {["name" := "Basket"; "role" := "laundry_basket"]}]>
             ∅)))
  = Returned
      (Flow CreateEntry,
       mkState ∅
         (<["nfc_basket" := {["name" := "Basket"; "role" := "laundry_basket"]}]> ∅),
       [StoreSave
          (<["nfc_basket" := {["name" := "Basket"; "role" := "laundry_basket"]}]> ∅)
          ∅])
  ∧ async_step_remove_scanner (mkEnv "t0" true) (Some "nfc_closet")
      (mkState ∅
         (<["nfc_closet" := {["name" := "Closet"; "role" := "closet"]}]>
            (<["nfc_basket" := {["name" := "Basket"; "role" := "laundry_basket"]}]>
               ∅)))
    = Returned
        (Flow CreateEntry,
         mkState ∅
           (<["nfc_basket" := {["name" := "Basket"; "role" := "laundry_basket"]}]> ∅),
         [Log ERROR]).
Proof.
  split.
  - exact (proj1 (proj1 (proj2 (async_step_remove_scanner_effect
                                  (mkEnv "t0" false)
           (mkState ∅
              (<["nfc_closet" := {["name" := "Closet"; "role" := "closet"]}]>
                 (<["nfc_basket" :=
                      {["name" := "Basket"; "role" := "laundry_basket"]}]> ∅))))
                           (insert_non_empty _ _ _))
                    "nfc_closet")).
  - exact (proj1 (proj1 (proj2 (async_step_remove_scanner_effect
                                  (mkEnv "t0" true)
           (mkState ∅
              (<["nfc_closet" := {["name" := "Closet"; "role" := "closet"]}]>
                 (<["nfc_basket" :=
                      {["name" := "Basket"; "role" := "laundry_basket"]}]> ∅))))
                           (insert_non_empty _ _ _))
                    "nfc_closet")).
Defined.
